(** * Forecasting dashboard: fetch orchestration, chart series, load harness

    A shallow embedding of the two programs of the repository:

    - [src/App.jsx], the React dashboard component: its state slots, the
      three loaders ([loadForecastData], [loadCostAnalysis], [loadMetrics]),
      the reload effect, the chart builders ([createForecastChart],
      [createPriceChart]), the accuracy badge ([getAccuracyBadge]) and the
      guards of the render tree;
    - the k6 script (second part of [src/todo.md]): the worker cycle
      ([default function]) and the end-of-run report ([handleSummary]).

    JavaScript values that come from the network are modelled as JSON trees;
    [undefined] is the [None] of [option JSON].  JavaScript numbers are
    modelled by rationals: every finite double is a rational and the
    comparisons of the programs ([<], [<=], [>]) agree with the order of
    [Q] on them.  An exception is an explicit [Throw] result. *)

From Stdlib Require Import ZArith QArith Qround Lia.
From stdpp Require Import base list strings pretty.

Local Open Scope string_scope.
Local Open Scope list_scope.

(** ** JavaScript values *)

Module JS.

#[local] Unset Elimination Schemes.
Inductive JSON : Type :=
| JNull
| JBool (b : bool)
| JNum (q : Q)
| JStr (s : string)
| JArr (elems : list JSON)
| JObj (fields : list (string * JSON)).
#[local] Set Elimination Schemes.

(** A JavaScript value read from a JSON tree: [None] is [undefined]. *)
Definition Value : Type := option JSON.

Inductive JSError : Type :=
| TypeError      (* property of null/undefined, call of a non-function *)
| SyntaxError    (* JSON.parse on a malformed text *)
| InvalidChild.  (* React: objects are not valid as a React child *)

(** Completion of an expression: a value, or a thrown exception. *)
Inductive Completion (A : Type) : Type :=
| Normal (a : A)
| Throw (e : JSError).
Arguments Normal {A} a.
Arguments Throw {A} e.

Definition bind {A B} (c : Completion A) (k : A -> Completion B)
  : Completion B :=
  match c with
  | Normal a => k a
  | Throw e => Throw e
  end.

Definition throws {A} (c : Completion A) : Prop :=
  match c with Normal _ => False | Throw _ => True end.

(** ToBoolean.  JSON has no NaN; the falsy values are [null], [false],
    [0], the empty string and [undefined]. *)
Definition truthy (v : JSON) : bool :=
  match v with
  | JNull => false
  | JBool b => b
  | JNum q => negb (Qeq_bool q 0)
  | JStr s => negb (String.eqb s "")
  | JArr _ => true
  | JObj _ => true
  end.

Definition truthy_v (v : Value) : bool :=
  match v with
  | None => false
  | Some j => truthy j
  end.

(** Own property of a parsed object (first binding of the key). *)
Fixpoint assoc (k : string) (fields : list (string * JSON)) : Value :=
  match fields with
  | [] => None
  | (k', v) :: rest => if String.eqb k k' then Some v else assoc k rest
  end.

(** [v.k] for a value [v] that is neither [null] nor [undefined] and a
    key [k] that is a data field of the API ([forecasts], [date],
    [demand_forecast], ...): objects answer with their own property,
    every other value with [undefined]. *)
Definition get (v : JSON) (k : string) : Value :=
  match v with
  | JObj fields => assoc k fields
  | _ => None
  end.

(** [v.k] in general: reading a property of [null] or [undefined] throws
    a TypeError. *)
Definition member (v : Value) (k : string) : Completion Value :=
  match v with
  | None => Throw TypeError
  | Some JNull => Throw TypeError
  | Some j => Normal (get j k)
  end.

(** [for each element, in order] of [Array.prototype.map]: the callback
    runs left to right and the first exception aborts the whole call. *)
Fixpoint mapM {A B} (f : A -> Completion B) (l : list A)
  : Completion (list B) :=
  match l with
  | [] => Normal []
  | a :: rest =>
      bind (f a) (fun b => bind (mapM f rest) (fun bs => Normal (b :: bs)))
  end.

(** [v.map(f)]: only arrays have a callable [map]; on any other value
    ([v.map] is [undefined], or a JSON value, never a function) the call
    throws a TypeError. *)
Definition js_map {B} (v : JSON) (f : Value -> Completion B)
  : Completion (list B) :=
  match v with
  | JArr elems => mapM (fun e => f (Some e)) elems
  | _ => Throw TypeError
  end.

End JS.

Import JS.

Notation "x <- c ;; k" := (JS.bind c (fun x => k))
  (at level 100, c at next level, right associativity).

(** ** What the JSX relies on: coercion to a primitive, React children *)

Module React.

(** ToPrimitive on a value parsed from JSON.  A parsed object has no
    callable property of its own, so its own [toString], when it has one,
    hides [Object.prototype.toString] and the conversion throws a
    TypeError; without it the object converts to a string.  An array
    converts through [join], which converts its elements in turn.  The
    other values are primitive. *)
Fixpoint to_primitive_throws (v : JSON) : bool :=
  match v with
  | JObj fields =>
      match assoc "toString" fields with Some _ => true | None => false end
  | JArr elems =>
      (fix any (l : list JSON) : bool :=
         match l with
         | [] => false
         | e :: rest => to_primitive_throws e || any rest
         end) elems
  | _ => false
  end.

(** An operator or constructor that first converts its operand to a
    primitive: [v * 100], [v <= 5], [new Date(v)]. *)
Definition coerces (v : Value) : Completion unit :=
  match v with
  | Some j => if to_primitive_throws j then Throw TypeError else Normal tt
  | None => Normal tt
  end.

(** What React accepts as a child [{v}]: [null], [undefined] and
    booleans render nothing, numbers and strings render as text, an array
    renders its elements, and an object is refused with an error. *)
Fixpoint valid_child (v : JSON) : bool :=
  match v with
  | JObj _ => false
  | JArr elems =>
      (fix all (l : list JSON) : bool :=
         match l with
         | [] => true
         | e :: rest => valid_child e && all rest
         end) elems
  | _ => true
  end.

Definition valid_child_v (v : Value) : bool :=
  match v with
  | Some j => valid_child j
  | None => true
  end.

End React.

(** ** src/App.jsx: pure helpers *)

(** *** getAccuracyBadge *)

(** The JSX element [<Badge className=...>text</Badge>]. *)
Record Badge : Type := mkBadge { className : string; text : string }.

Definition badge_excellent : Badge :=
  mkBadge "bg-green-500" "Excellent (≤5%)".
Definition badge_good : Badge :=
  mkBadge "bg-yellow-500" "Good (≤10%)".
Definition badge_needs_improvement : Badge :=
  mkBadge "bg-red-500" "Needs Improvement (>10%)".

Definition getAccuracyBadge (mae : Q) : Badge :=
  if Qle_bool mae 5 then badge_excellent
  else if Qle_bool mae 10 then badge_good
  else badge_needs_improvement.

(** *** createForecastChart / createPriceChart *)

Module Plotly.

Record Line : Type := mkLine
{ color : string; width : Z; dash : option string }.

Record Trace : Type := mkTrace
{ x : list Value;
  y : list Value;
  type : string;
  mode : string;
  name : string;
  line : Line;
  fill : option string;
  fillcolor : option string;
  showlegend : option bool }.

Record Margin : Type := mkMargin { t : Z; r : Z; b : Z; l : Z }.

Record Layout : Type := mkLayout
{ title : string;
  xaxis_title : string;
  yaxis_title : string;
  height : Z;
  margin : Margin }.

Record PlotProps : Type := mkPlotProps
{ data : list Trace; layout : Layout }.

End Plotly.

Import Plotly (Line, Trace, Margin, Layout, PlotProps,
               mkLine, mkTrace, mkMargin, mkLayout, mkPlotProps).

(** The three traces shared by both builders; they differ in the colours
    and in the name of the centre line only. *)
Definition band_traces (center_name col fillcol : string)
    (dates center lower upper : list Value) : list Trace :=
  [ mkTrace dates center "scatter" "lines" center_name
      (mkLine col 3 None) None None None;
    mkTrace dates upper "scatter" "lines" "Upper Bound"
      (mkLine col 1 (Some "dot")) None None (Some false);
    mkTrace dates lower "scatter" "lines" "Lower Bound"
      (mkLine col 1 (Some "dot")) (Some "tonexty") (Some fillcol)
      (Some false) ].

Definition createForecastChart (selectedItem : string) (forecastData : JSON)
  : Completion (option PlotProps) :=
  if negb (truthy forecastData)
     || negb (truthy_v (get forecastData "forecasts"))
  then Normal None
  else
    match get forecastData "forecasts" with
    | None => Normal None
    | Some forecasts =>
        dates <- js_map forecasts (fun f => member f "date") ;;
        demandForecast <-
          js_map forecasts (fun f => member f "demand_forecast") ;;
        demandLower <- js_map forecasts (fun f => member f "demand_lower") ;;
        demandUpper <- js_map forecasts (fun f => member f "demand_upper") ;;
        Normal (Some
          (mkPlotProps
             (band_traces "Demand Forecast" "#3b82f6"
                "rgba(59, 130, 246, 0.1)"
                dates demandForecast demandLower demandUpper)
             (mkLayout ("Demand Forecast - " ++ selectedItem)
                "Date" "Demand" 400 (mkMargin 50 50 50 50))))
    end.

Definition createPriceChart (selectedItem : string) (forecastData : JSON)
  : Completion (option PlotProps) :=
  if negb (truthy forecastData)
     || negb (truthy_v (get forecastData "forecasts"))
  then Normal None
  else
    match get forecastData "forecasts" with
    | None => Normal None
    | Some forecasts =>
        dates <- js_map forecasts (fun f => member f "date") ;;
        priceForecast <-
          js_map forecasts (fun f => member f "price_forecast") ;;
        priceLower <- js_map forecasts (fun f => member f "price_lower") ;;
        priceUpper <- js_map forecasts (fun f => member f "price_upper") ;;
        Normal (Some
          (mkPlotProps
             (band_traces "Price Forecast" "#10b981"
                "rgba(16, 185, 129, 0.1)"
                dates priceForecast priceLower priceUpper)
             (mkLayout ("Price Forecast - " ++ selectedItem)
                "Date" "Price ($)" 400 (mkMargin 50 50 50 50))))
    end.

(** The band series of a chart: the [y] columns of its three traces, in
    the order centre, upper, lower, over the [x] column of the first. *)
Record BandSeries : Type := mkBand
  { axis : list Value;
    center : list Value;
    upper : list Value;
    lower : list Value }.

Definition series_of (p : PlotProps) : option BandSeries :=
  match Plotly.data p with
  | [c; u; lo] =>
      Some (mkBand (Plotly.x c) (Plotly.y c) (Plotly.y u) (Plotly.y lo))
  | _ => None
  end.

Definition empty_series : BandSeries := mkBand [] [] [] [].

(** A value of [forecasts] on which [.map] or the point callback fails:
    anything that is not an array, or an array with a [null] element. *)
Definition malformed_points (forecasts : JSON) : Prop :=
  match forecasts with
  | JArr elems => In JNull elems
  | _ => True
  end.

(** The column of field [k] over a sequence of points. *)
Definition column (k : string) (points : list JSON) : list Value :=
  map (fun pt => get pt k) points.

(** The chart both builders return on well-formed points, as a function
    of the field names. *)
Definition band_chart (center_name col fillcol ttl ytitle : string)
    (kc kl ku : string) (points : list JSON) : PlotProps :=
  mkPlotProps
    (band_traces center_name col fillcol (column "date" points)
       (column kc points) (column kl points) (column ku points))
    (mkLayout ttl "Date" ytitle 400 (mkMargin 50 50 50 50)).

(** ** src/App.jsx: the component state and the fetch orchestration *)

Module App.

Definition API_BASE_URL : string := "http://localhost:8000".

(** The three values every loader closes over. *)
Record SelectionKey : Type := mkKey
  { itemId : string; horizonDays : Z; model : string }.

#[global] Instance SelectionKey_eq_dec : EqDecision SelectionKey.
Proof. solve_decision. Defined.

Inductive Kind : Type := ForecastReq | CostReq | MetricsReq.

#[global] Instance Kind_eq_dec : EqDecision Kind.
Proof. solve_decision. Defined.

(** A call of [axios.get] that has not settled yet: which loader made
    it, and the selection its URL was built from. *)
Record Request : Type := mkReq { kind : Kind; key : SelectionKey }.

Definition url (rq : Request) : string :=
  match kind rq with
  | ForecastReq =>
      API_BASE_URL ++ "/forecast/" ++ itemId (key rq)
        ++ "?days=" ++ pretty (horizonDays (key rq))
        ++ "&model=" ++ model (key rq)
  | CostReq =>
      API_BASE_URL ++ "/cost-analysis/" ++ itemId (key rq) ++ "?period=30d"
  | MetricsReq =>
      API_BASE_URL ++ "/metrics/" ++ itemId (key rq)
        ++ "?model=" ++ model (key rq)
  end.

(** How the promise of [axios.get] settles: with [response.data], or by
    throwing (network failure, status outside 2xx). *)
Inductive Outcome (A : Type) : Type :=
| Fulfilled (data : A)
| Rejected.
Arguments Fulfilled {A} data.
Arguments Rejected {A}.

(** The [useState] slots of [App], with their initial values below. *)
Record State : Type := mkState
  { items : list string;
    selectedItem : string;
    forecastData : JSON;
    costAnalysis : JSON;
    metrics : JSON;
    loading : bool;
    error : option string;
    forecastDays : Z;
    modelType : string }.

Definition initial_state : State :=
  mkState [] "" JNull JNull JNull false None 90 "prophet".

Definition setItems (v : list string) (s : State) : State :=
  mkState v (selectedItem s) (forecastData s) (costAnalysis s) (metrics s)
    (loading s) (error s) (forecastDays s) (modelType s).
Definition setSelectedItem (v : string) (s : State) : State :=
  mkState (items s) v (forecastData s) (costAnalysis s) (metrics s)
    (loading s) (error s) (forecastDays s) (modelType s).
Definition setForecastData (v : JSON) (s : State) : State :=
  mkState (items s) (selectedItem s) v (costAnalysis s) (metrics s)
    (loading s) (error s) (forecastDays s) (modelType s).
Definition setCostAnalysis (v : JSON) (s : State) : State :=
  mkState (items s) (selectedItem s) (forecastData s) v (metrics s)
    (loading s) (error s) (forecastDays s) (modelType s).
Definition setMetrics (v : JSON) (s : State) : State :=
  mkState (items s) (selectedItem s) (forecastData s) (costAnalysis s) v
    (loading s) (error s) (forecastDays s) (modelType s).
Definition setLoading (v : bool) (s : State) : State :=
  mkState (items s) (selectedItem s) (forecastData s) (costAnalysis s)
    (metrics s) v (error s) (forecastDays s) (modelType s).
Definition setError (v : option string) (s : State) : State :=
  mkState (items s) (selectedItem s) (forecastData s) (costAnalysis s)
    (metrics s) (loading s) v (forecastDays s) (modelType s).
Definition setForecastDays (v : Z) (s : State) : State :=
  mkState (items s) (selectedItem s) (forecastData s) (costAnalysis s)
    (metrics s) (loading s) (error s) v (modelType s).
Definition setModelType (v : string) (s : State) : State :=
  mkState (items s) (selectedItem s) (forecastData s) (costAnalysis s)
    (metrics s) (loading s) (error s) (forecastDays s) v.

Definition current_key (s : State) : SelectionKey :=
  mkKey (selectedItem s) (forecastDays s) (modelType s).

(** The result slot a loader writes. *)
Definition slot (K : Kind) (s : State) : JSON :=
  match K with
  | ForecastReq => forecastData s
  | CostReq => costAnalysis s
  | MetricsReq => metrics s
  end.

(** The component together with what surrounds it: the requests in
    flight (oldest first, numbered in the order of issue), the console,
    and two history variables that the code does not have and that only
    the statements below read: [origin K], the selection of the request
    whose response was last written into slot [K], and [last_requested],
    the selection of the last run of the reload effect. *)
Record World : Type := mkWorld
  { app : State;
    inflight : list (nat * Request);
    next_id : nat;
    console : list string;
    origin : Kind -> option SelectionKey;
    last_requested : option SelectionKey }.

Definition initial_world : World :=
  mkWorld initial_state [] 0 [] (fun _ => None) None.

Definition with_app (f : State -> State) (w : World) : World :=
  mkWorld (f (app w)) (inflight w) (next_id w) (console w) (origin w)
    (last_requested w).

Definition console_error (msg : string) (w : World) : World :=
  mkWorld (app w) (inflight w) (next_id w) (console w ++ [msg]) (origin w)
    (last_requested w).

Definition set_origin (K : Kind) (k : SelectionKey) (w : World) : World :=
  mkWorld (app w) (inflight w) (next_id w) (console w)
    (fun K' => if decide (K' = K) then Some k else origin w K')
    (last_requested w).

Definition set_last_requested (k : SelectionKey) (w : World) : World :=
  mkWorld (app w) (inflight w) (next_id w) (console w) (origin w) (Some k).

(** [await axios.get(url)]: the request leaves with the selection of the
    render whose closure runs, and the loader is suspended. *)
Definition axios_get (K : Kind) (w : World) : World :=
  mkWorld (app w)
    (inflight w ++ [(next_id w, mkReq K (current_key (app w)))])
    (S (next_id w)) (console w) (origin w) (last_requested w).

Definition find_request (id : nat) (w : World) : option Request :=
  snd <$> List.find (fun e => Nat.eqb (fst e) id) (inflight w).

Definition drop_request (id : nat) (w : World) : World :=
  mkWorld (app w)
    (filter (fun e => fst e <> id) (inflight w))
    (next_id w) (console w) (origin w) (last_requested w).

(** *** The loaders, split at their [await] *)

Definition loadForecastData_call (w : World) : World :=
  axios_get ForecastReq
    (with_app (setError None) (with_app (setLoading true) w)).

Definition loadForecastData_resume (rq : Request) (o : Outcome JSON)
    (w : World) : World :=
  let w' :=
    match o with
    | Fulfilled response_data =>
        set_origin ForecastReq (key rq)
          (with_app (setForecastData response_data) w)
    | Rejected =>
        console_error "Error fetching forecast:"
          (with_app (setError (Some "Failed to load forecast data")) w)
    end in
  with_app (setLoading false) w'.

Definition loadCostAnalysis_call (w : World) : World :=
  axios_get CostReq w.

Definition loadCostAnalysis_resume (rq : Request) (o : Outcome JSON)
    (w : World) : World :=
  match o with
  | Fulfilled response_data =>
      set_origin CostReq (key rq)
        (with_app (setCostAnalysis response_data) w)
  | Rejected => console_error "Error fetching cost analysis:" w
  end.

Definition loadMetrics_call (w : World) : World :=
  axios_get MetricsReq w.

Definition loadMetrics_resume (rq : Request) (o : Outcome JSON)
    (w : World) : World :=
  match o with
  | Fulfilled response_data =>
      set_origin MetricsReq (key rq)
        (with_app (setMetrics response_data) w)
  | Rejected => console_error "Error fetching metrics:" w
  end.

(** The body of the second [useEffect]. *)
Definition reload_effect (w : World) : World :=
  if String.eqb (selectedItem (app w)) "" then w
  else
    loadMetrics_call
      (loadCostAnalysis_call
         (loadForecastData_call
            (set_last_requested (current_key (app w)) w))).

(** A state update [f] followed by the render it causes: the effect runs
    when one of its dependencies [selectedItem, forecastDays, modelType]
    differs from the previous render. *)
Definition update_selection (f : State -> State) (w : World) : World :=
  let w' := with_app f w in
  if decide (current_key (app w') = current_key (app w)) then w'
  else reload_effect w'.

(** [refresh k]: the render in which the selection has become [k],
    followed by the effect.  This is what [update_selection] does when
    the update changes the selection. *)
Definition select (k : SelectionKey) (s : State) : State :=
  setModelType (model k)
    (setForecastDays (horizonDays k) (setSelectedItem (itemId k) s)).

Definition refresh (k : SelectionKey) (w : World) : World :=
  reload_effect (with_app (select k) w).

Inductive Event : Type :=
| ItemsResponse (o : Outcome (list string)) (* GET /items settles *)
| SelectItem (item : string)                (* onValueChange of Item *)
| SelectDays (days : Z)                     (* onValueChange of Days *)
| SelectModel (m : string)                  (* onValueChange of Model *)
| ClickUpdate                               (* the Update Forecast button *)
| Settle (id : nat) (o : Outcome JSON).     (* request [id] settles *)

Definition fetchItems_resume (o : Outcome (list string)) (w : World)
  : World :=
  match o with
  | Fulfilled response_items =>
      match response_items with
      | first :: _ =>
          update_selection
            (fun s => setSelectedItem first (setItems response_items s)) w
      | [] => with_app (setItems response_items) w
      end
  | Rejected =>
      console_error "Error fetching items:"
        (with_app (setError (Some "Failed to load items")) w)
  end.

(** The state updates of one handler or one promise continuation, with
    the reload effect when they change the selection.  This is the code of
    the handlers alone: a handler runs to its end whatever the render that
    follows makes of the new state.  That render, and the component that
    React unmounts when it throws, are [Live.render_app] and
    [Live.live_step] below; a run of the mounted component is a run of
    [step] all of whose states render ([live_run_mounted]). *)
Definition step (w : World) (ev : Event) : World :=
  match ev with
  | ItemsResponse o => fetchItems_resume o w
  | SelectItem item => update_selection (setSelectedItem item) w
  | SelectDays days => update_selection (setForecastDays days) w
  | SelectModel m => update_selection (setModelType m) w
  | ClickUpdate =>
      (* disabled={loading || !selectedItem} *)
      if loading (app w) || String.eqb (selectedItem (app w)) ""
      then w else loadForecastData_call w
  | Settle id o =>
      match find_request id w with
      | None => w
      | Some rq =>
          let w' := drop_request id w in
          match kind rq with
          | ForecastReq => loadForecastData_resume rq o w'
          | CostReq => loadCostAnalysis_resume rq o w'
          | MetricsReq => loadMetrics_resume rq o w'
          end
      end
  end.

Definition run (w : World) (evs : list Event) : World :=
  fold_left step evs w.

Definition reachable (w : World) : Prop :=
  exists evs, w = run initial_world evs.

(** A forecast response with one point. *)
Definition sample_forecast : JSON :=
  JObj [("model_type", JStr "prophet");
        ("forecasts",
         JArr [JObj [("date", JStr "2024-01-01");
                     ("demand_forecast", JNum 10);
                     ("demand_lower", JNum 8);
                     ("demand_upper", JNum 12)]])].

(** A metrics response and a cost-analysis response as the service
    sends them. *)
Definition sample_metrics : JSON :=
  JObj [("demand_metrics", JObj [("mae", JNum 7)]);
        ("price_metrics", JObj [("mae", JNum 3)])].

Definition sample_cost : JSON :=
  JObj [("avg_cost", JNum 4);
        ("waste_rate", JNum (5 # 100));
        ("total_waste_cost", JNum 12)].

(** An earlier selection whose three requests were fulfilled. *)
Definition loaded_world : World :=
  run initial_world
    [ SelectItem "ITEM001";
      Settle 0 (Fulfilled sample_forecast);
      Settle 1 (Fulfilled (JObj [("avg_cost", JNum 4)]));
      Settle 2 (Fulfilled sample_metrics) ].

(** *** The guards of the render tree *)

(** Which guarded sections of the returned JSX are included, and the
    props spread into the two [Plot] elements.  [render] evaluates the
    guards only ([error &&], [metrics &&], [costAnalysis &&],
    [forecastData &&]); the expressions inside the sections, which can
    throw, are evaluated by [Live.render_app], and [render s] is the
    screen exactly when [Live.render_app s] completes normally. *)
Record Screen : Type := mkScreen
  { error_card : option string;
    metrics_cards : bool;
    cost_cards : bool;
    charts :
      option (Completion (option PlotProps)
              * Completion (option PlotProps));
    model_information : bool }.

Definition render (s : State) : Screen :=
  mkScreen
    (match error s with
     | Some msg => if String.eqb msg "" then None else Some msg
     | None => None
     end)
    (truthy (metrics s))
    (truthy (metrics s) && truthy (costAnalysis s))
    (if truthy (forecastData s)
     then Some (createForecastChart (selectedItem s) (forecastData s),
                createPriceChart (selectedItem s) (forecastData s))
     else None)
    (truthy (forecastData s)).

(** *** Vocabulary of the statements about arrival order *)

#[global] Instance Request_eq_dec : EqDecision Request.
Proof. solve_decision. Defined.

(** The requests of loader [K] still in flight, oldest first. *)
Definition pending (K : Kind) (w : World) : list (nat * Request) :=
  filter (fun e => kind (snd e) = K) (inflight w).

(** The event respects the order of issue: a settling request is the
    oldest one its loader still has in flight. *)
Definition in_order (w : World) (ev : Event) : bool :=
  match ev with
  | Settle id _ =>
      match find_request id w with
      | Some rq => bool_decide (head (pending (kind rq) w) = Some (id, rq))
      | None => true
      end
  | _ => true
  end.

Fixpoint arrives_in_order (w : World) (evs : list Event) : bool :=
  match evs with
  | [] => true
  | ev :: rest => in_order w ev && arrives_in_order (step w ev) rest
  end.

(** No request of the three loaders is rejected. *)
Definition no_rejection (ev : Event) : bool :=
  match ev with
  | Settle _ Rejected => false
  | _ => true
  end.

(** No response is written into a slot. *)
Definition no_fulfilment (ev : Event) : bool :=
  match ev with
  | Settle _ (Fulfilled _) => false
  | _ => true
  end.

(** What holds of every world reached with responses arriving in the
    order of issue and none rejected: while loader [K] has requests in
    flight the newest of them carries the last selection requested, and
    once it has none its slot holds the response to that selection. *)
Definition last_key_inv (w : World) : Prop :=
  (String.eqb (selectedItem (app w)) "" = false ->
   last_requested w = Some (current_key (app w)))
  /\ forall K,
       match last (pending K w) with
       | Some e => last_requested w = Some (key (snd e))
       | None => origin w K = last_requested w
       end.

(** A forecast response that names the item it was computed for. *)
Definition forecast_for (item : string) : JSON :=
  JObj [("item_id", JStr item);
        ("model_type", JStr "prophet");
        ("forecast_days", JNum 90);
        ("forecasts", JArr [])].

(** Request numbers are used once. *)
Definition fresh_ids (w : World) : Prop :=
  Forall (fun e => fst e < next_id w) (inflight w)
  /\ NoDup (fst <$> inflight w).

End App.


(** ** The k6 load script (src/todo.md, second part) *)

(** *** The part of the k6 runtime the script touches *)

Module K6.

(** An [http.get] response.  [parsed_body] is the result of
    [JSON.parse(r.body)]: the parsed tree, or a thrown SyntaxError. *)
Record Response : Type := mkResponse
  { status : Z;
    parsed_body : Completion JSON;
    timings_duration : Q }.

(** What a virtual user can observe and change: the two custom metrics
    of the script, the tally of [check], the requests sent, the number
    of calls of [Math.random] so far, and the wall clock in ms. *)
Record VUState : Type := mkVU
  { errors : list Z;          (* samples of [new Rate('errors')] *)
    response_time : list Z;   (* samples of [new Trend('response_time')] *)
    checks : list (string * bool);
    http_reqs : list string;
    random_calls : nat;
    now : Z }.

(** What the run is exposed to: the random source, the server, and the
    wall-clock time a GET of a URL takes. *)
Record Env : Type := mkEnv
  { random : nat -> Q;
    server : string -> Response;
    latency : string -> Z }.

Definition VU (A : Type) : Type := Env -> VUState -> A * VUState.

Definition ret {A} (a : A) : VU A := fun _ st => (a, st).

Definition bind {A B} (c : VU A) (k : A -> VU B) : VU B :=
  fun env st => let (a, st') := c env st in k a env st'.

Definition Math_random : VU Q :=
  fun env st =>
    (random env (random_calls st),
     mkVU (errors st) (response_time st) (checks st) (http_reqs st)
       (S (random_calls st)) (now st)).

Definition Date_now : VU Z := fun _ st => (now st, st).

Definition http_get (url : string) : VU Response :=
  fun env st =>
    (server env url,
     mkVU (errors st) (response_time st) (checks st) (http_reqs st ++ [url])
       (random_calls st) (now st + latency env url)).

Definition sleep (ms : Z) : VU unit :=
  fun _ st =>
    (tt,
     mkVU (errors st) (response_time st) (checks st) (http_reqs st)
       (random_calls st) (now st + ms)).

(** [Rate.add(v)] and [Trend.add(v)] on the two custom metrics. *)
Definition errorRate_add (v : Z) : VU unit :=
  fun _ st =>
    (tt,
     mkVU (errors st ++ [v]) (response_time st) (checks st) (http_reqs st)
       (random_calls st) (now st)).

Definition responseTime_add (v : Z) : VU unit :=
  fun _ st =>
    (tt,
     mkVU (errors st) (response_time st ++ [v]) (checks st) (http_reqs st)
       (random_calls st) (now st)).

(** [check(val, sets)]: every named predicate is evaluated and tallied;
    the result is [true] when all of them hold. *)
Definition check {A} (val : A) (sets : list (string * (A -> bool)))
  : VU bool :=
  fun _ st =>
    (forallb (fun c => snd c val) sets,
     mkVU (errors st) (response_time st)
       (checks st ++ map (fun c => (fst c, snd c val)) sets)
       (http_reqs st) (random_calls st) (now st)).

End K6.

Notation "x <~ c ;; k" := (K6.bind c (fun x => k))
  (at level 100, c at next level, right associativity).

(** *** The script *)

Module LoadTest.

Import K6.

Definition BASE_URL : string := "http://localhost:8000".

Definition items : list string :=
  ["ITEM001"; "ITEM002"; "ITEM003"; "ITEM004"; "ITEM005"].
Definition models : list string := ["prophet"; "arima"].
Definition forecastDays : list Z := [30; 60; 90]%Z.

(** [a < b] on numbers. *)
Definition js_lt (a b : Q) : bool := negb (Qle_bool b a).

(** [l[i]]: [undefined] outside the array. *)
Definition index {A} (l : list A) (i : Z) : option A :=
  if (i <? 0)%Z then None else l !! Z.to_nat i.

(** A value inside a template literal. *)
Definition interpolate (v : option string) : string :=
  match v with Some s => s | None => "undefined" end.

(** [r.status === 200] *)
Definition status_is_200 (r : Response) : bool := (status r =? 200)%Z.

(** [r.timings.duration < 300] *)
Definition response_time_lt_300ms (r : Response) : bool :=
  js_lt (timings_duration r) 300.

(** [data.mae_demand !== null && data.mae_price !== null], inside
    [try { ... } catch (e) { return false; }]. *)
Definition not_null (v : Value) : bool :=
  match v with Some JNull => false | _ => true end.

Definition mae_is_reasonable (r : Response) : bool :=
  match
    (data <- parsed_body r ;;
     mae_demand <- member (Some data) "mae_demand" ;;
     if not_null mae_demand
     then (mae_price <- member (Some data) "mae_price" ;;
           Normal (not_null mae_price))
     else Normal false)
  with
  | Normal res => res
  | Throw _ => false
  end.

Section Engine.

(** Two operations of the JavaScript engine are taken as given: the
    product of two doubles (with its rounding), and the outcome of
    [v > 0] for a value [v] that is a string, an array or an object (which
    goes through ToPrimitive and StringToNumber). *)
Variable fmul : Q -> Q -> Q.
Variable coerced_gt_zero : JSON -> bool.

(** [v > 0] *)
Definition gt_zero (v : Value) : bool :=
  match v with
  | None => false                 (* undefined is NaN *)
  | Some JNull => false           (* null is 0 *)
  | Some (JBool b) => b           (* true is 1, false is 0 *)
  | Some (JNum q) => js_lt 0 q
  | Some j => coerced_gt_zero j
  end.

(** [v.length] for a truthy [v]. *)
Definition length_of (v : JSON) : Value :=
  match v with
  | JArr elems => Some (JNum (inject_Z (Z.of_nat (length elems))))
  | JStr s => Some (JNum (inject_Z (Z.of_nat (String.length s))))
  | JObj fields => assoc "length" fields
  | _ => None
  end.

(** [data.forecasts && data.forecasts.length > 0], inside
    [try { ... } catch (e) { return false; }]; [check] reads the result
    through ToBoolean. *)
Definition response_has_forecasts (r : Response) : bool :=
  match
    (data <- parsed_body r ;;
     forecasts <- member (Some data) "forecasts" ;;
     match forecasts with
     | None => Normal false
     | Some f =>
         if truthy f then Normal (gt_zero (length_of f)) else Normal false
     end)
  with
  | Normal res => res
  | Throw _ => false
  end.

(** [arr[Math.floor(Math.random() * arr.length)]] *)
Definition pick {A} (arr : list A) : VU (option A) :=
  rnd <~ Math_random ;;
  ret (index arr (Qfloor (fmul rnd (inject_Z (Z.of_nat (length arr)))))).

Definition forecast_checks : list (string * (Response -> bool)) :=
  [ ("status is 200", status_is_200);
    ("response time < 300ms", response_time_lt_300ms);
    ("response has forecasts", response_has_forecasts);
    ("MAE is reasonable", mae_is_reasonable) ].

Definition forecast_url (item model days : string) : string :=
  BASE_URL ++ "/forecast/" ++ item ++ "?days=" ++ days ++ "&model=" ++ model.

(** [export default function ()]: one cycle of a virtual user. *)
Definition default_function : VU unit :=
  item <~ pick items ;;
  model <~ pick models ;;
  days <~ pick forecastDays ;;
  let item := interpolate item in
  let model := interpolate model in
  let forecastUrl := forecast_url item model (interpolate (pretty <$> days)) in
  startTime <~ Date_now ;;
  response <~ http_get forecastUrl ;;
  endTime <~ Date_now ;;
  let duration := (endTime - startTime)%Z in
  _ <~ responseTime_add duration ;;
  success <~ check response forecast_checks ;;
  _ <~ (if negb success then errorRate_add 1 else errorRate_add 0) ;;
  rnd1 <~ Math_random ;;
  _ <~ (if js_lt rnd1 (1 # 10) then
          metricsResponse <~
            http_get (BASE_URL ++ "/metrics/" ++ item ++ "?model=" ++ model) ;;
          _ <~ check metricsResponse
                 [("metrics status is 200", status_is_200)] ;;
          ret tt
        else ret tt) ;;
  rnd2 <~ Math_random ;;
  _ <~ (if js_lt rnd2 (5 # 100) then
          costResponse <~
            http_get (BASE_URL ++ "/cost-analysis/" ++ item ++ "?period=30d") ;;
          _ <~ check costResponse
                 [("cost analysis status is 200", status_is_200)] ;;
          ret tt
        else ret tt) ;;
  rnd3 <~ Math_random ;;
  _ <~ (if js_lt rnd3 (2 # 100) then
          healthResponse <~ http_get (BASE_URL ++ "/health") ;;
          _ <~ check healthResponse
                 [("health status is 200", status_is_200)] ;;
          ret tt
        else ret tt) ;;
  sleep 100.

(** The two custom metrics of a state. *)
Definition aggregates (st : VUState) : list Z * list Z :=
  (errors st, response_time st).

(** The sample the cycle adds to [errors] for a primary response [r]. *)
Definition primary_sample (r : Response) : Z :=
  if negb (forallb (fun c => snd c r) forecast_checks) then 1%Z else 0%Z.

(** The element [pick arr] returns when it makes the [k]-th call of
    [Math.random]. *)
Definition drawn {A} (env : Env) (arr : list A) (k : nat) : option A :=
  index arr (Qfloor (fmul (random env k) (inject_Z (Z.of_nat (length arr))))).

(** The URL of the primary request of the cycle that starts in [st]. *)
Definition primary_url (env : Env) (st : VUState) : string :=
  let n := random_calls st in
  forecast_url (interpolate (drawn env items n))
    (interpolate (drawn env models (S n)))
    (interpolate (pretty <$> drawn env forecastDays (S (S n)))).

(** *** handleSummary *)

(** The fields of [data] that [handleSummary] reads for its verdicts.  A
    number that the summary may lack ([values['p(95)']]) is an option:
    [None] is [undefined]. *)
Record SummaryData : Type := mkSummary
  { http_req_duration_p95 : option Q;
    http_req_failed_rate : Q }.

(** [(v || 0)] *)
Definition or_zero (v : option Q) : Q :=
  match v with
  | Some q => if Qeq_bool q 0 then 0 else q
  | None => 0
  end.

(** [v < c] where [v] may be [undefined] (then the comparison is false). *)
Definition maybe_lt (v : option Q) (c : Q) : bool :=
  match v with
  | Some q => js_lt q c
  | None => false
  end.

(** The verdicts interpolated into the [stdout] block, and the artifact
    [load_test_results.json] (the serialised [data], kept as the record).
    The numeric lines of the block, printed with [toFixed], are left
    out. *)
Record Report : Type := mkReport
  { load_test_results_json : SummaryData;
    threshold_p95 : string;
    threshold_error_rate : string;
    test_verdict : string }.

Definition handleSummary (data : SummaryData) : Report :=
  mkReport data
    (if js_lt (or_zero (http_req_duration_p95 data)) 300
     then "PASS" else "FAIL")
    (if js_lt (or_zero (Some (fmul (http_req_failed_rate data) 100))) 10
     then "PASS" else "FAIL")
    (if maybe_lt (http_req_duration_p95 data) 300
        && js_lt (http_req_failed_rate data) (1 # 10)
     then "PASSED" else "FAILED").

End Engine.

(** *** Sample runs *)

(** A forecast body as the service sends it: one point and both error
    figures. *)
Definition sample_body : JSON :=
  JObj [("forecasts", JArr [JObj [("date", JStr "2024-01-01")]]);
        ("mae_demand", JNum 7);
        ("mae_price", JNum 3)].

(** A server that answers every request with [r], a random source stuck
    at one half, and requests that take [ms] milliseconds. *)
Definition constant_env (r : Response) (ms : Z) : Env :=
  mkEnv (fun _ => 1 # 2) (fun _ => r) (fun _ => ms).

Definition fresh_vu : VUState := mkVU [] [] [] [] 0 0.

(** The sample bodies hold an array of forecasts, so that [v > 0] is
    never asked of a string, an array or an object; the runs below pass
    this placeholder for that operation, and the exact product for the
    rounded one. *)
Definition coercion_unused : JSON -> bool := fun _ => false.

End LoadTest.


(** ** src/App.jsx: the metrics cards and the selection controls *)

Module Cards.

Import App.

(** A JavaScript number: NaN, an infinity, or a finite value. *)
Inductive JSNumber : Type :=
| NaN
| NegInfinity
| PosInfinity
| Finite (q : Q).

(** [n <= c] for a finite literal [c]. *)
Definition le_literal (n : JSNumber) (c : Q) : bool :=
  match n with
  | NaN => false
  | NegInfinity => true
  | PosInfinity => false
  | Finite q => Qle_bool q c
  end.

Section Coercion.

(** ToNumber of a string, an array or an object (ToPrimitive, then
    StringToNumber) is taken as given. *)
Variable coerced_to_number : JSON -> JSNumber.

(** ToNumber. *)
Definition to_number (v : Value) : JSNumber :=
  match v with
  | None => NaN
  | Some JNull => Finite 0
  | Some (JBool b) => Finite (if b then 1 else 0)
  | Some (JNum q) => Finite q
  | Some j => coerced_to_number j
  end.

(** [getAccuracyBadge] on whatever value the metrics response holds. *)
Definition getAccuracyBadge_value (mae : Value) : Badge :=
  if le_literal (to_number mae) 5 then badge_excellent
  else if le_literal (to_number mae) 10 then badge_good
  else badge_needs_improvement.

(** [metrics.demand_metrics.mae] and [metrics.price_metrics.mae]. *)
Definition group_mae (metrics : JSON) (group : string) : Completion Value :=
  g <- member (Some metrics) group ;; member g "mae".

(** One MAE card: the value shown and its badge. *)
Record MaeCard : Type := mkMaeCard { shown : Value; badge : Badge }.

(** The expressions of one MAE card, in the order the JSX evaluates
    them: the value shown, then the argument of [getAccuracyBadge], whose
    comparisons convert it to a primitive. *)
Definition mae_expression (metrics : JSON) (group : string)
  : Completion Value :=
  mae_shown <- group_mae metrics group ;;
  mae <- group_mae metrics group ;;
  _ <- React.coerces mae ;;
  Normal mae_shown.

Definition mae_expressions (metrics : JSON) : Completion (Value * Value) :=
  demand <- mae_expression metrics "demand_metrics" ;;
  price <- mae_expression metrics "price_metrics" ;;
  Normal (demand, price).

(** The two MAE cards as React mounts them: the expressions are
    evaluated, then the values shown must be valid children.  [None]
    when the [metrics &&] guard leaves the block out. *)
Definition mae_cards (s : State) : option (Completion (MaeCard * MaeCard)) :=
  if truthy (metrics s) then
    Some
      (shown <- mae_expressions (metrics s) ;;
       if React.valid_child_v (fst shown) && React.valid_child_v (snd shown)
       then
         Normal
           (mkMaeCard (fst shown) (getAccuracyBadge_value (fst shown)),
            mkMaeCard (snd shown) (getAccuracyBadge_value (snd shown)))
       else Throw InvalidChild)
  else None.

End Coercion.

(** The MAE card of [group] can be mounted: the group is there, and its
    [mae], when it has one, converts to a primitive and is a valid
    child. *)
Definition card_renders (metrics : JSON) (group : string) : Prop :=
  exists g,
    get metrics group = Some g /\ g <> JNull
    /\ forall mae,
         get g "mae" = Some mae ->
         React.to_primitive_throws mae = false
         /\ React.valid_child mae = true.

(** The selection an event of the three controls asks for. *)
Definition selection_after (s : State) (ev : Event) : option SelectionKey :=
  match ev with
  | SelectItem item => Some (mkKey item (forecastDays s) (modelType s))
  | SelectDays days => Some (mkKey (selectedItem s) days (modelType s))
  | SelectModel m => Some (mkKey (selectedItem s) (forecastDays s) m)
  | _ => None
  end.

(** The three requests the reload effect issues for selection [k] when
    the next request number is [n]. *)
Definition reload_requests (n : nat) (k : SelectionKey)
  : list (nat * Request) :=
  [ (n, mkReq ForecastReq k);
    (S n, mkReq CostReq k);
    (S (S n), mkReq MetricsReq k) ].

(** The event is a fulfilled response of loader [K]. *)
Definition fulfils (K : Kind) (w : World) (ev : Event) : bool :=
  match ev with
  | Settle id (Fulfilled _) =>
      match find_request id w with
      | Some rq => bool_decide (kind rq = K)
      | None => false
      end
  | _ => false
  end.

Fixpoint never_fulfils (K : Kind) (w : World) (evs : list Event) : bool :=
  match evs with
  | [] => true
  | ev :: rest => negb (fulfils K w ev) && never_fulfils K (step w ev) rest
  end.

End Cards.

(** ** src/App.jsx: the render as a whole, and the mounted component *)

Module Live.

Import App Cards.

(** The expressions of the two cost cards: [costAnalysis.avg_cost],
    [(costAnalysis.waste_rate * 100).toFixed(2)] and
    [costAnalysis.total_waste_cost]; the result lists the values handed
    to React as children. *)
Definition cost_expressions (c : JSON) : Completion (list Value) :=
  avg_cost <- member (Some c) "avg_cost" ;;
  waste_rate <- member (Some c) "waste_rate" ;;
  _ <- React.coerces waste_rate ;;
  total_waste_cost <- member (Some c) "total_waste_cost" ;;
  Normal [avg_cost; total_waste_cost].

(** The block [{metrics && (...)}] with the cost cards nested in it. *)
Definition metrics_block (m c : JSON) : Completion (list Value) :=
  if truthy m then
    shown <- mae_expressions m ;;
    cost <- (if truthy c then cost_expressions c else Normal []) ;;
    Normal ([fst shown; snd shown] ++ cost)
  else Normal [].

(** The Model Information card: [forecastData.model_type.toUpperCase()]
    needs a string, [forecastData.forecast_days] is a child, and
    [new Date(forecastData.generated_at)] converts its argument. *)
Definition model_information_expressions (fd : JSON)
  : Completion (list Value) :=
  model_type <- member (Some fd) "model_type" ;;
  _ <- (match model_type with
        | Some (JStr _) => Normal tt
        | _ => Throw TypeError
        end) ;;
  forecast_days <- member (Some fd) "forecast_days" ;;
  generated_at <- member (Some fd) "generated_at" ;;
  _ <- React.coerces generated_at ;;
  Normal [forecast_days].

(** The two blocks [{forecastData && (...)}]: the charts, then the card. *)
Definition forecast_block (item : string) (fd : JSON)
  : Completion (list Value) :=
  if truthy fd then
    _ <- createForecastChart item fd ;;
    _ <- createPriceChart item fd ;;
    model_information_expressions fd
  else Normal [].

(** One call of [App]: every expression of the returned JSX is
    evaluated, top to bottom, and React then mounts the children.  The
    controls and the error card hold strings and cannot fail; the [Plot]
    element and the UI widgets are taken to render the props they get. *)
Definition render_app (s : State) : Completion Screen :=
  m <- metrics_block (metrics s) (costAnalysis s) ;;
  f <- forecast_block (selectedItem s) (forecastData s) ;;
  if forallb React.valid_child_v (m ++ f) then Normal (render s)
  else Throw InvalidChild.

Definition mounts (s : State) : bool :=
  match render_app s with
  | Normal _ => true
  | Throw _ => false
  end.

(** The component in the page.  There is no error boundary: when a
    render throws, React unmounts [App], and from then on no handler has
    a state to update. *)
Inductive Component : Type :=
| Mounted (w : World)
| Unmounted.

(** The state updates of a handler are followed by a render of the new
    state. *)
Definition commit (w : World) : Component :=
  if mounts (app w) then Mounted w else Unmounted.

Definition live_step (c : Component) (ev : Event) : Component :=
  match c with
  | Mounted w => commit (step w ev)
  | Unmounted => Unmounted
  end.

Definition live_run (c : Component) (evs : list Event) : Component :=
  fold_left live_step evs c.

(** The fulfilled responses of a run are the answers of a server that
    answers every request by its kind and selection. *)
Definition answers (respond : Request -> JSON) (w : World) (ev : Event)
  : Prop :=
  match ev with
  | Settle id (Fulfilled d) =>
      match find_request id w with
      | Some rq => d = respond rq
      | None => True
      end
  | _ => True
  end.

Fixpoint served_by (respond : Request -> JSON) (w : World)
    (evs : list Event) : Prop :=
  match evs with
  | [] => True
  | ev :: rest => answers respond w ev /\ served_by respond (step w ev) rest
  end.

(** What slot [K] holds when it holds the answer to the last selection
    requested, and [null] when nothing was requested yet. *)
Definition answer_to_last (respond : Request -> JSON) (K : Kind)
    (w : World) : JSON :=
  match last_requested w with
  | Some k => respond (mkReq K k)
  | None => JNull
  end.

(** A server that sends well-formed bodies. *)
Definition sample_server (rq : Request) : JSON :=
  match kind rq with
  | ForecastReq => forecast_for (itemId (key rq))
  | CostReq => sample_cost
  | MetricsReq => sample_metrics
  end.

End Live.

(** ** The k6 load script: the loop of a virtual user *)

Module LoadRun.

Import K6 LoadTest.

Section Engine.

Variable fmul : Q -> Q -> Q.
Variable coerced_gt_zero : JSON -> bool.

(** A virtual user runs the default function again and again. *)
Fixpoint iterations (n : nat) : VU unit :=
  match n with
  | O => ret tt
  | S n' => _ <~ default_function fmul coerced_gt_zero ;; iterations n'
  end.

(** The URLs of the three probes. *)
Definition metrics_url (item model : string) : string :=
  BASE_URL ++ "/metrics/" ++ item ++ "?model=" ++ model.
Definition cost_url (item : string) : string :=
  BASE_URL ++ "/cost-analysis/" ++ item ++ "?period=30d".
Definition health_url : string := BASE_URL ++ "/health".

(** The URLs of the probes of the cycle that starts in [st]: each is
    there when its own draw is below its threshold. *)
Definition probe_urls (env : Env) (st : VUState) : list string :=
  let n := random_calls st in
  let item := interpolate (drawn fmul env items n) in
  let model := interpolate (drawn fmul env models (S n)) in
  (if js_lt (random env (S (S (S n)))) (1 # 10)
   then [metrics_url item model] else [])
  ++ (if js_lt (random env (S (S (S (S n))))) (5 # 100)
      then [cost_url item] else [])
  ++ (if js_lt (random env (S (S (S (S (S n)))))) (2 # 100)
      then [health_url] else []).

End Engine.

End LoadRun.

(** * Properties *)

Import App.

(** ** Accuracy badge *)

Section AccuracyBadge.

Local Open Scope Q_scope.

Lemma badges_distinct :
  badge_excellent <> badge_good
  /\ badge_excellent <> badge_needs_improvement
  /\ badge_good <> badge_needs_improvement.
Proof. repeat split; discriminate. Qed.

Lemma getAccuracyBadge_cases (mae : Q) :
  (mae <= 5 /\ getAccuracyBadge mae = badge_excellent)
  \/ (5 < mae /\ mae <= 10 /\ getAccuracyBadge mae = badge_good)
  \/ (10 < mae /\ getAccuracyBadge mae = badge_needs_improvement).
Proof.
  unfold getAccuracyBadge.
  destruct (Qle_bool mae 5) eqn:H5.
  - left. split; [ now apply Qle_bool_iff | reflexivity ].
  - right.
    assert (5 < mae) as Hlt.
    { apply Qnot_le_lt. intros Hle. apply Qle_bool_iff in Hle. congruence. }
    destruct (Qle_bool mae 10) eqn:H10.
    + left. repeat split; [ exact Hlt | now apply Qle_bool_iff ].
    + right. split; [ | reflexivity ].
      apply Qnot_le_lt. intros Hle. apply Qle_bool_iff in Hle. congruence.
Qed.

(** C6.  For every number [mae] the badge is "Excellent" exactly when
    [mae <= 5], "Good" exactly when [5 < mae <= 10] and "Needs
    Improvement" exactly when [mae > 10]; the boundaries 5 and 10 fall in
    the lower tier, 5.01 and 10.01 in the upper one, and the three badges
    carry the three tier names. *)
Theorem accuracy_badge_tiers (mae : Q) :
  (getAccuracyBadge mae = badge_excellent <-> mae <= 5)
  /\ (getAccuracyBadge mae = badge_good <-> 5 < mae /\ mae <= 10)
  /\ (getAccuracyBadge mae = badge_needs_improvement <-> 10 < mae)
  /\ getAccuracyBadge 5 = badge_excellent
  /\ getAccuracyBadge (501 # 100) = badge_good
  /\ getAccuracyBadge 10 = badge_good
  /\ getAccuracyBadge (1001 # 100) = badge_needs_improvement
  /\ String.prefix "Excellent" (text badge_excellent) = true
  /\ String.prefix "Good" (text badge_good) = true
  /\ String.prefix "Needs Improvement" (text badge_needs_improvement) = true.
Proof.
  destruct badges_distinct as (Heg & Hen & Hgn).
  assert (forall a b c : Q, a < b -> b <= c -> c <= a -> False) as Hcyc.
  { intros a b c Hab Hbc Hca. apply (Qlt_not_le _ _ Hab).
    now apply Qle_trans with c. }
  destruct (getAccuracyBadge_cases mae)
    as [(Ha & Hb) | [(Ha & Hb & Hc) | (Ha & Hb)]]; rewrite ?Hb, ?Hc.
  - split; [ tauto | ]. split; [ | split ].
    + split; [ congruence | ]. intros [H _]. exfalso.
      exact (Qlt_not_le _ _ H Ha).
    + split; [ congruence | ]. intros H. exfalso.
      apply (Hcyc 5 10 mae); [ reflexivity | now apply Qlt_le_weak | exact Ha ].
    + repeat split; reflexivity.
  - split; [ | split; [ | split ] ].
    + split; [ congruence | ]. intros H. exfalso. exact (Qlt_not_le _ _ Ha H).
    + tauto.
    + split; [ congruence | ]. intros H. exfalso. exact (Qlt_not_le _ _ H Hb).
    + repeat split; reflexivity.
  - split; [ | split; [ | split ] ].
    + split; [ congruence | ]. intros H. exfalso.
      apply (Hcyc 5 10 mae); [ reflexivity | now apply Qlt_le_weak | exact H ].
    + split; [ congruence | ]. intros [_ H]. exfalso.
      exact (Qlt_not_le _ _ Ha H).
    + tauto.
    + repeat split; reflexivity.
Qed.

End AccuracyBadge.

(** ** Series builder *)

Section SeriesBuilder.

Lemma get_Some_truthy (fd : JSON) (k : string) (v : JSON) :
  get fd k = Some v -> truthy fd = true.
Proof. destruct fd; simpl; intros H; try discriminate; reflexivity. Qed.

Lemma null_or_points (elems : list JSON) :
  In JNull elems \/ Forall (fun e => e <> JNull) elems.
Proof.
  induction elems as [| e elems IH].
  - right. constructor.
  - destruct IH as [IH | IH]; [ left; now right | ].
    destruct e; try (right; constructor; [ discriminate | exact IH ]).
    left. now left.
Qed.

Lemma mapM_member_points (k : string) (points : list JSON) :
  Forall (fun e => e <> JNull) points ->
  mapM (fun e => member (Some e) k) points = Normal (column k points).
Proof.
  induction 1 as [| e points He _ IH]; [ reflexivity | ].
  cbn [mapM]. rewrite IH. destruct e; try reflexivity. congruence.
Qed.

Lemma mapM_member_null (k : string) (points : list JSON) :
  In JNull points ->
  mapM (fun e => member (Some e) k) points = Throw TypeError.
Proof.
  induction points as [| e points IH]; [ simpl; tauto | ].
  intros [-> | Hin]; [ reflexivity | ].
  cbn [mapM]. rewrite (IH Hin). destruct e; reflexivity.
Qed.

Lemma js_map_malformed (k : string) (f : JSON) :
  malformed_points f ->
  js_map f (fun e => member e k) = Throw TypeError.
Proof.
  destruct f; simpl; try reflexivity. apply mapM_member_null.
Qed.

Lemma createForecastChart_points (item : string) (fd : JSON)
    (points : list JSON) :
  get fd "forecasts" = Some (JArr points) ->
  Forall (fun e => e <> JNull) points ->
  createForecastChart item fd =
  Normal (Some (band_chart "Demand Forecast" "#3b82f6"
                  "rgba(59, 130, 246, 0.1)" ("Demand Forecast - " ++ item)
                  "Demand" "demand_forecast" "demand_lower" "demand_upper"
                  points)).
Proof.
  intros Hget Hpts. unfold createForecastChart.
  rewrite (get_Some_truthy _ _ _ Hget), Hget.
  cbn [truthy_v truthy negb orb js_map].
  rewrite !mapM_member_points by assumption. reflexivity.
Qed.

Lemma createPriceChart_points (item : string) (fd : JSON)
    (points : list JSON) :
  get fd "forecasts" = Some (JArr points) ->
  Forall (fun e => e <> JNull) points ->
  createPriceChart item fd =
  Normal (Some (band_chart "Price Forecast" "#10b981"
                  "rgba(16, 185, 129, 0.1)" ("Price Forecast - " ++ item)
                  "Price ($)" "price_forecast" "price_lower" "price_upper"
                  points)).
Proof.
  intros Hget Hpts. unfold createPriceChart.
  rewrite (get_Some_truthy _ _ _ Hget), Hget.
  cbn [truthy_v truthy negb orb js_map].
  rewrite !mapM_member_points by assumption. reflexivity.
Qed.

Lemma createForecastChart_throws (item : string) (fd : JSON) :
  throws (createForecastChart item fd) <->
  exists f, get fd "forecasts" = Some f /\ truthy f = true
            /\ malformed_points f.
Proof.
  split.
  - unfold createForecastChart.
    destruct (truthy fd); simpl; [ | tauto ].
    destruct (get fd "forecasts") as [f |] eqn:Hget; simpl; [ | tauto ].
    destruct (truthy f) eqn:Hf; simpl; [ | tauto ].
    intros Hthrow. exists f. repeat split; try assumption.
    destruct f; simpl; try exact I.
    destruct (null_or_points elems) as [Hin | Hall]; [ exact Hin | ].
    exfalso. cbn [js_map] in Hthrow.
    rewrite !mapM_member_points in Hthrow by assumption. exact Hthrow.
  - intros (f & Hget & Hf & Hbad). unfold createForecastChart.
    rewrite (get_Some_truthy _ _ _ Hget), Hget. simpl. rewrite Hf. simpl.
    rewrite (js_map_malformed "date" f Hbad). exact I.
Qed.

Lemma createPriceChart_throws (item : string) (fd : JSON) :
  throws (createPriceChart item fd) <->
  exists f, get fd "forecasts" = Some f /\ truthy f = true
            /\ malformed_points f.
Proof.
  split.
  - unfold createPriceChart.
    destruct (truthy fd); simpl; [ | tauto ].
    destruct (get fd "forecasts") as [f |] eqn:Hget; simpl; [ | tauto ].
    destruct (truthy f) eqn:Hf; simpl; [ | tauto ].
    intros Hthrow. exists f. repeat split; try assumption.
    destruct f; simpl; try exact I.
    destruct (null_or_points elems) as [Hin | Hall]; [ exact Hin | ].
    exfalso. cbn [js_map] in Hthrow.
    rewrite !mapM_member_points in Hthrow by assumption. exact Hthrow.
  - intros (f & Hget & Hf & Hbad). unfold createPriceChart.
    rewrite (get_Some_truthy _ _ _ Hget), Hget. simpl. rewrite Hf. simpl.
    rewrite (js_map_malformed "date" f Hbad). exact I.
Qed.

Lemma chart_without_forecasts (item : string) (fd : JSON) :
  truthy_v (get fd "forecasts") = false ->
  createForecastChart item fd = Normal None
  /\ createPriceChart item fd = Normal None.
Proof.
  intros H. unfold createForecastChart, createPriceChart. rewrite H.
  rewrite orb_true_r. split; reflexivity.
Qed.

(** C7, as the code has it.  The builders return [null] (no chart and no
    exception) when [forecastData] is [null] or has no truthy [forecasts]
    field; on an empty array of points they return a chart whose centre,
    upper and lower sequences are empty, for both measures; and they throw
    exactly when [forecasts] is a truthy value that is not an array, or an
    array with a [null] element. *)
Theorem series_builder_degrades (item : string) (fd : JSON) :
  (truthy_v (get fd "forecasts") = false ->
   createForecastChart item fd = Normal None
   /\ createPriceChart item fd = Normal None)
  /\ (get fd "forecasts" = Some (JArr []) ->
      exists demand price,
        createForecastChart item fd = Normal (Some demand)
        /\ createPriceChart item fd = Normal (Some price)
        /\ series_of demand = Some empty_series
        /\ series_of price = Some empty_series)
  /\ (throws (createForecastChart item fd) <->
      exists f, get fd "forecasts" = Some f /\ truthy f = true
                /\ malformed_points f)
  /\ (throws (createPriceChart item fd) <->
      exists f, get fd "forecasts" = Some f /\ truthy f = true
                /\ malformed_points f).
Proof.
  split; [ apply chart_without_forecasts | ].
  split; [ | split;
             [ apply createForecastChart_throws
             | apply createPriceChart_throws ] ].
  intros Hget.
  eexists. eexists.
  rewrite (createForecastChart_points item fd [] Hget) by constructor.
  rewrite (createPriceChart_points item fd [] Hget) by constructor.
  repeat split; reflexivity.
Qed.

Lemma series_builder_degrades_witness :
  (createForecastChart "ITEM001" JNull = Normal None
   /\ createPriceChart "ITEM001" JNull = Normal None)
  /\ exists demand price,
       createForecastChart "ITEM001" (JObj [("forecasts", JArr [])])
       = Normal (Some demand)
       /\ createPriceChart "ITEM001" (JObj [("forecasts", JArr [])])
          = Normal (Some price)
       /\ series_of demand = Some empty_series
       /\ series_of price = Some empty_series.
Proof.
  split.
  - apply (proj1 (series_builder_degrades "ITEM001" JNull)). reflexivity.
  - apply (proj1 (proj2 (series_builder_degrades "ITEM001"
                           (JObj [("forecasts", JArr [])])))).
    reflexivity.
Defined.

(** C7 as stated fails: a response whose [forecasts] holds a [null]
    point, or is not an array, makes both builders throw; and a response
    without the field yields [null], not an empty series. *)
Lemma series_builder_throws :
  createForecastChart "ITEM001" (JObj [("forecasts", JArr [JNull])])
  = Throw TypeError
  /\ createPriceChart "ITEM001" (JObj [("forecasts", JArr [JNull])])
     = Throw TypeError
  /\ createForecastChart "ITEM001" (JObj [("forecasts", JStr "n/a")])
     = Throw TypeError
  /\ createForecastChart "ITEM001" (JObj [("model_type", JStr "arima")])
     = Normal None
  /\ ~ (forall item fd, ~ throws (createForecastChart item fd)).
Proof.
  repeat split; try reflexivity.
  intros H.
  apply (H "ITEM001" (JObj [("forecasts", JArr [JNull])])). exact I.
Qed.

(** C8.  For every sequence of points, both builders return a chart
    whose centre, upper and lower sequences and whose date axis are the
    columns of the input, point by point in the input's order; each has
    the length of the input, and the three traces share the date axis. *)
Theorem series_builder_preserves_points (item : string) (fd : JSON)
    (points : list JSON) :
  get fd "forecasts" = Some (JArr points) ->
  Forall (fun pt => pt <> JNull) points ->
  exists demand price,
    createForecastChart item fd = Normal (Some demand)
    /\ createPriceChart item fd = Normal (Some price)
    /\ series_of demand
       = Some (mkBand (column "date" points)
                 (column "demand_forecast" points)
                 (column "demand_upper" points)
                 (column "demand_lower" points))
    /\ series_of price
       = Some (mkBand (column "date" points)
                 (column "price_forecast" points)
                 (column "price_upper" points)
                 (column "price_lower" points))
    /\ Forall (fun tr => Plotly.x tr = column "date" points
                         /\ length (Plotly.x tr) = length points
                         /\ length (Plotly.y tr) = length points)
         (Plotly.data demand ++ Plotly.data price).
Proof.
  intros Hget Hpts.
  eexists. eexists.
  rewrite (createForecastChart_points item fd points Hget Hpts).
  rewrite (createPriceChart_points item fd points Hget Hpts).
  repeat split; try reflexivity.
  simpl. unfold column.
  repeat (constructor; [ simpl; rewrite ?length_map; tauto | ]).
  constructor.
Qed.

Lemma series_builder_preserves_points_witness :
  exists demand price,
    createForecastChart "ITEM001"
      (JObj [("forecasts",
              JArr [JObj [("date", JStr "2024-01-01");
                          ("demand_forecast", JNum 10)];
                    JObj [("date", JStr "2024-01-02");
                          ("demand_forecast", JNum 12)]])])
    = Normal (Some demand)
    /\ createPriceChart "ITEM001"
         (JObj [("forecasts",
                 JArr [JObj [("date", JStr "2024-01-01");
                             ("demand_forecast", JNum 10)];
                       JObj [("date", JStr "2024-01-02");
                             ("demand_forecast", JNum 12)]])])
       = Normal (Some price)
    /\ center <$> series_of demand
       = Some [Some (JNum 10); Some (JNum 12)]
    /\ axis <$> series_of price
       = Some [Some (JStr "2024-01-01"); Some (JStr "2024-01-02")].
Proof.
  destruct (series_builder_preserves_points "ITEM001"
              (JObj [("forecasts",
                      JArr [JObj [("date", JStr "2024-01-01");
                                  ("demand_forecast", JNum 10)];
                            JObj [("date", JStr "2024-01-02");
                                  ("demand_forecast", JNum 12)]])])
              [JObj [("date", JStr "2024-01-01");
                     ("demand_forecast", JNum 10)];
               JObj [("date", JStr "2024-01-02");
                     ("demand_forecast", JNum 12)]])
    as (demand & price & Hd & Hp & Hsd & Hsp & _).
  - reflexivity.
  - repeat constructor; discriminate.
  - exists demand, price. rewrite Hsd, Hsp. repeat split; assumption.
Defined.

End SeriesBuilder.

(** ** Fetch orchestration *)

Section FetchOrchestrator.

(** *** What a settlement does to the component *)

Lemma settle_slot (w : World) (id : nat) (rq : Request) (o : Outcome JSON)
    (K : Kind) :
  find_request id w = Some rq ->
  slot K (app (step w (Settle id o))) =
  match o with
  | Fulfilled d => if decide (kind rq = K) then d else slot K (app w)
  | Rejected => slot K (app w)
  end.
Proof.
  intros Hfind. cbn [step]. rewrite Hfind.
  destruct rq as [[] k], o, K; reflexivity.
Qed.

Lemma settle_error (w : World) (id : nat) (rq : Request) (o : Outcome JSON) :
  find_request id w = Some rq ->
  error (app (step w (Settle id o))) =
  match kind rq, o with
  | ForecastReq, Rejected => Some "Failed to load forecast data"
  | _, _ => error (app w)
  end.
Proof.
  intros Hfind. cbn [step]. rewrite Hfind.
  destruct rq as [[] k], o; reflexivity.
Qed.

Lemma settle_selection (w : World) (id : nat) (o : Outcome JSON) :
  selectedItem (app (step w (Settle id o))) = selectedItem (app w).
Proof.
  cbn [step]. destruct (find_request id w) as [[[] k] |], o; reflexivity.
Qed.

Lemma settle_unknown (w : World) (id : nat) (o : Outcome JSON) :
  find_request id w = None -> step w (Settle id o) = w.
Proof. intros Hfind. cbn [step]. now rewrite Hfind. Qed.

(** Starting a reload, changing the selection or clicking the button
    leaves the three result slots as they are. *)
Lemma reload_effect_slot (K : Kind) (w : World) :
  slot K (app (reload_effect w)) = slot K (app w).
Proof.
  unfold reload_effect. destruct (String.eqb _ _), K; reflexivity.
Qed.

Lemma update_selection_slot (K : Kind) (f : State -> State) (w : World) :
  (forall s, slot K (f s) = slot K s) ->
  slot K (app (update_selection f w)) = slot K (app w).
Proof.
  intros Hf. unfold update_selection.
  destruct (decide _); [ apply Hf | ].
  rewrite reload_effect_slot. apply Hf.
Qed.

Lemma step_slot (K : Kind) (w : World) (ev : Event) :
  no_fulfilment ev = true ->
  slot K (app (step w ev)) = slot K (app w).
Proof.
  destruct ev as [[its |] | item | days | m | | id [d |]];
    intros Hev; try discriminate.
  - destruct its as [| first rest]; cbn [step fetchItems_resume].
    + destruct K; reflexivity.
    + apply update_selection_slot. intros s. destruct K; reflexivity.
  - destruct K; reflexivity.
  - apply update_selection_slot. intros s. destruct K; reflexivity.
  - apply update_selection_slot. intros s. destruct K; reflexivity.
  - apply update_selection_slot. intros s. destruct K; reflexivity.
  - cbn [step]. destruct (_ || _); [ reflexivity | ]. destruct K; reflexivity.
  - destruct (find_request id w) as [rq |] eqn:Hfind.
    + now rewrite (settle_slot w id rq Rejected K Hfind).
    + now rewrite settle_unknown.
Qed.

Lemma run_slot (K : Kind) (evs : list Event) (w : World) :
  forallb no_fulfilment evs = true ->
  slot K (app (run w evs)) = slot K (app w).
Proof.
  revert w. induction evs as [| ev evs IH]; intros w Hevs; [ reflexivity | ].
  cbn [forallb] in Hevs. apply andb_true_iff in Hevs as [Hev Hevs].
  cbn [run fold_left]. fold (run (step w ev) evs).
  rewrite (IH _ Hevs). now apply step_slot.
Qed.

(** C9.  A rejected forecast request stores the error message and leaves
    [forecastData], [costAnalysis] and [metrics] untouched; more generally
    no event other than a fulfilled response changes any of the three, so
    after a new selection whose requests all fail, the results of the
    earlier selection are still in the state. *)
Theorem failed_refresh_keeps_results (w : World) (evs : list Event)
    (id : nat) (rq : Request) :
  forallb no_fulfilment evs = true ->
  find_request id (run w evs) = Some rq ->
  kind rq = ForecastReq ->
  let w' := step (run w evs) (Settle id Rejected) in
  error (app w') = Some "Failed to load forecast data"
  /\ forecastData (app w') = forecastData (app w)
  /\ costAnalysis (app w') = costAnalysis (app w)
  /\ metrics (app w') = metrics (app w).
Proof.
  intros Hevs Hfind Hkind w'. subst w'.
  split.
  - rewrite (settle_error _ _ _ _ Hfind), Hkind. reflexivity.
  - pose proof (fun K => settle_slot _ _ _ Rejected K Hfind) as Hslot.
    pose proof (fun K => run_slot K evs w Hevs) as Hrun.
    repeat split.
    + specialize (Hrun ForecastReq). specialize (Hslot ForecastReq).
      cbn [slot] in Hrun, Hslot. congruence.
    + specialize (Hrun CostReq). specialize (Hslot CostReq).
      cbn [slot] in Hrun, Hslot. congruence.
    + specialize (Hrun MetricsReq). specialize (Hslot MetricsReq).
      cbn [slot] in Hrun, Hslot. congruence.
Qed.

Lemma failed_refresh_keeps_results_witness :
  let w' :=
    step (run loaded_world [SelectModel "arima"; Settle 4 Rejected])
      (Settle 3 Rejected) in
  error (app w') = Some "Failed to load forecast data"
  /\ forecastData (app w') = sample_forecast
  /\ costAnalysis (app w') = JObj [("avg_cost", JNum 4)]
  /\ metrics (app w') = sample_metrics.
Proof.
  apply (failed_refresh_keeps_results loaded_world
           [SelectModel "arima"; Settle 4 Rejected] 3
           (mkReq ForecastReq (mkKey "ITEM001" 90 "arima")));
    reflexivity.
Defined.

(** C2, as the code has it.  A rejected forecast request puts the message
    "Failed to load forecast data" on the screen; the charts and the model
    card stay as they were before the failure, so they are absent exactly
    when no forecast response was in [forecastData] before it. *)
Theorem failed_forecast_error_and_charts (w : World) (id : nat)
    (rq : Request) :
  find_request id w = Some rq ->
  kind rq = ForecastReq ->
  let w' := step w (Settle id Rejected) in
  error_card (render (app w')) = Some "Failed to load forecast data"
  /\ charts (render (app w')) = charts (render (app w))
  /\ model_information (render (app w'))
     = model_information (render (app w))
  /\ (charts (render (app w')) = None
      <-> truthy (forecastData (app w)) = false).
Proof.
  intros Hfind Hkind w'. subst w'.
  pose proof (settle_error _ _ _ Rejected Hfind) as Herr.
  rewrite Hkind in Herr.
  pose proof (settle_slot _ _ _ Rejected ForecastReq Hfind) as Hfd.
  pose proof (settle_selection w id Rejected) as Hsel.
  cbn [slot] in Hfd.
  unfold render. cbn [error_card charts model_information].
  rewrite Herr, Hfd, Hsel. repeat split.
  - destruct (truthy (forecastData (app w))); [ discriminate | reflexivity ].
  - intros ->. reflexivity.
Qed.

Lemma failed_forecast_error_and_charts_witness :
  let w' := step (step initial_world (SelectItem "ITEM001"))
              (Settle 0 Rejected) in
  error_card (render (app w')) = Some "Failed to load forecast data"
  /\ charts (render (app w')) = None.
Proof.
  destruct (failed_forecast_error_and_charts
              (step initial_world (SelectItem "ITEM001")) 0
              (mkReq ForecastReq (mkKey "ITEM001" 90 "prophet"))
              eq_refl eq_refl) as (Herr & _ & _ & Hcharts).
  split; [ exact Herr | ]. apply Hcharts. reflexivity.
Defined.


(** *** Request numbers *)

Lemma fresh_ids_same (w w' : World) :
  inflight w' = inflight w -> next_id w' = next_id w ->
  fresh_ids w -> fresh_ids w'.
Proof. unfold fresh_ids. intros -> ->. tauto. Qed.

Lemma fresh_ids_axios_get (K : Kind) (w : World) :
  fresh_ids w -> fresh_ids (axios_get K w).
Proof.
  intros [Hlt Hnd]. split; cbn [axios_get inflight next_id].
  - apply Forall_app. split.
    + eapply Forall_impl; [ exact Hlt | ]. intros e He. simpl in *. lia.
    + constructor; [ simpl; lia | constructor ].
  - rewrite fmap_app. apply NoDup_app. split; [ exact Hnd | ]. split.
    + intros n Hn Hn'. apply list_elem_of_fmap in Hn as (e & -> & He).
      rewrite Forall_forall in Hlt. specialize (Hlt e He).
      apply list_elem_of_singleton in Hn'. simpl in Hn'. lia.
    + apply NoDup_singleton.
Qed.

Lemma fresh_ids_drop_request (id : nat) (w : World) :
  fresh_ids w -> fresh_ids (drop_request id w).
Proof.
  intros [Hlt Hnd]. split; cbn [drop_request inflight next_id].
  - rewrite Forall_forall in *. intros e He.
    apply list_elem_of_filter in He as [_ He]. now apply Hlt.
  - eapply sublist_NoDup; [ exact Hnd | ].
    apply fmap_sublist, sublist_filter.
Qed.

Lemma fresh_ids_reload_effect (w : World) :
  fresh_ids w -> fresh_ids (reload_effect w).
Proof.
  intros Hw. unfold reload_effect. destruct (String.eqb _ _); [ exact Hw | ].
  unfold loadMetrics_call, loadCostAnalysis_call, loadForecastData_call.
  repeat apply fresh_ids_axios_get. exact Hw.
Qed.

Lemma fresh_ids_update_selection (f : State -> State) (w : World) :
  fresh_ids w -> fresh_ids (update_selection f w).
Proof.
  intros Hw. unfold update_selection.
  destruct (decide _); [ exact Hw | ].
  apply fresh_ids_reload_effect. exact Hw.
Qed.

Lemma fresh_ids_step (w : World) (ev : Event) :
  fresh_ids w -> fresh_ids (step w ev).
Proof.
  intros Hw.
  destruct ev as [[its |] | item | days | m | | id o]; cbn [step].
  - destruct its; cbn [fetchItems_resume];
      [ exact Hw | now apply fresh_ids_update_selection ].
  - exact Hw.
  - now apply fresh_ids_update_selection.
  - now apply fresh_ids_update_selection.
  - now apply fresh_ids_update_selection.
  - destruct (_ || _); [ exact Hw | ].
    apply fresh_ids_axios_get. exact Hw.
  - destruct (find_request id w) as [rq |]; [ | exact Hw ].
    apply fresh_ids_drop_request with (id := id) in Hw.
    destruct rq as [[] k], o; exact Hw.
Qed.

Lemma fresh_ids_run (evs : list Event) (w : World) :
  fresh_ids w -> fresh_ids (run w evs).
Proof.
  revert w. induction evs as [| ev evs IH]; intros w Hw; [ exact Hw | ].
  cbn [run fold_left]. apply IH, fresh_ids_step, Hw.
Qed.

Lemma fresh_ids_reachable (w : World) : reachable w -> fresh_ids w.
Proof.
  intros [evs ->]. apply fresh_ids_run. split; constructor.
Qed.

(** *** Looking a request up *)

Lemma find_past_older (n id : nat) (old l : list (nat * Request)) :
  Forall (fun e => fst e < n) old -> n <= id ->
  List.find (fun e => Nat.eqb (fst e) id) (old ++ l)
  = List.find (fun e => Nat.eqb (fst e) id) l.
Proof.
  intros Hold Hid. induction Hold as [| e old He _ IH]; [ reflexivity | ].
  rewrite <- app_comm_cons. cbn [List.find].
  destruct (Nat.eqb_spec (fst e) id); [ lia | exact IH ].
Qed.

Lemma find_after_drop (id id' : nat) (l : list (nat * Request)) :
  id' <> id ->
  List.find (fun e => Nat.eqb (fst e) id') (filter (fun e => fst e <> id) l)
  = List.find (fun e => Nat.eqb (fst e) id') l.
Proof.
  intros Hne. induction l as [| e l IH]; [ reflexivity | ].
  rewrite filter_cons. destruct (decide (fst e <> id)) as [Hk | Hk].
  - cbn [List.find]. now rewrite IH.
  - cbn [List.find]. destruct (Nat.eqb_spec (fst e) id'); [ | exact IH ].
    exfalso. apply Hk. congruence.
Qed.

Lemma settle_find (w : World) (id id' : nat) (o : Outcome JSON) :
  id' <> id ->
  find_request id' (step w (Settle id o)) = find_request id' w.
Proof.
  intros Hne. cbn [step].
  destruct (find_request id w) as [rq |]; [ | reflexivity ].
  transitivity (find_request id' (drop_request id w)).
  - destruct rq as [[] k], o; reflexivity.
  - unfold find_request. cbn [drop_request inflight].
    now rewrite find_after_drop.
Qed.

Lemma reload_effect_requests (w : World) :
  String.eqb (selectedItem (app w)) "" = false ->
  let k := current_key (app w) in
  let n := next_id w in
  inflight (reload_effect w)
  = inflight w ++ [ (n, mkReq ForecastReq k);
                    (S n, mkReq CostReq k);
                    (S (S n), mkReq MetricsReq k) ]
  /\ next_id (reload_effect w) = S (S (S n))
  /\ error (app (reload_effect w)) = None.
Proof.
  intros Hsel. unfold reload_effect. rewrite Hsel.
  cbn. rewrite <- !app_assoc. repeat split; reflexivity.
Qed.

Lemma reload_effect_find (w : World) :
  fresh_ids w ->
  String.eqb (selectedItem (app w)) "" = false ->
  let k := current_key (app w) in
  let n := next_id w in
  find_request n (reload_effect w) = Some (mkReq ForecastReq k)
  /\ find_request (S n) (reload_effect w) = Some (mkReq CostReq k)
  /\ find_request (S (S n)) (reload_effect w) = Some (mkReq MetricsReq k).
Proof.
  intros [Hlt _] Hsel k n.
  destruct (reload_effect_requests w Hsel) as (Hin & _ & _).
  unfold find_request. rewrite Hin. fold k. fold n.
  rewrite !(find_past_older n) by (assumption || lia).
  cbn [List.find fst].
  rewrite Nat.eqb_refl.
  replace (Nat.eqb n (S n)) with false by (symmetry; apply Nat.eqb_neq; lia).
  replace (Nat.eqb n (S (S n))) with false
    by (symmetry; apply Nat.eqb_neq; lia).
  replace (Nat.eqb (S n) (S (S n))) with false
    by (symmetry; apply Nat.eqb_neq; lia).
  rewrite !Nat.eqb_refl. repeat split; reflexivity.
Qed.

(** A change of item is a [refresh] with the new selection. *)
Lemma select_item_refreshes (w : World) (item : string) :
  item <> selectedItem (app w) ->
  step w (SelectItem item)
  = refresh (mkKey item (forecastDays (app w)) (modelType (app w))) w.
Proof.
  intros Hne. cbn [step]. unfold update_selection, refresh.
  destruct (decide _) as [Hkey | _]; [ | reflexivity ].
  exfalso. apply Hne. now injection Hkey.
Qed.

(** Selecting ITEM003, 90 days and ARIMA issues exactly the three
    requests of that selection. *)
Example refresh_issues_three_requests :
  map (fun e => url (snd e))
    (inflight (refresh (mkKey "ITEM003" 90 "arima") initial_world))
  = [ "http://localhost:8000/forecast/ITEM003?days=90&model=arima";
      "http://localhost:8000/cost-analysis/ITEM003?period=30d";
      "http://localhost:8000/metrics/ITEM003?model=arima" ].
Proof. reflexivity. Qed.

(** *** One refresh cycle with a failing forecast *)

Ltac settled :=
  rewrite ?settle_find by lia; eassumption.


(** *** Arrival in the order of issue *)

Lemma last_key_inv_same (w w' : World) :
  inflight w' = inflight w ->
  origin w' = origin w ->
  last_requested w' = last_requested w ->
  current_key (app w') = current_key (app w) ->
  last_key_inv w -> last_key_inv w'.
Proof.
  intros Hin Hor Hlast Hkey [Hsel Hpend]. split.
  - rewrite Hlast, Hkey.
    replace (selectedItem (app w')) with (itemId (current_key (app w')))
      by reflexivity.
    rewrite Hkey. exact Hsel.
  - intros K. specialize (Hpend K). unfold pending in *.
    rewrite Hin, Hor, Hlast. exact Hpend.
Qed.

Lemma last_key_inv_deselect (f : State -> State) (w : World) :
  String.eqb (selectedItem (f (app w))) "" = true ->
  last_key_inv w -> last_key_inv (with_app f w).
Proof.
  intros Hsel [_ Hpend]. split; [ | exact Hpend ].
  cbn [with_app app]. rewrite Hsel. discriminate.
Qed.

Lemma pending_axios_get (K K' : Kind) (w : World) :
  pending K (axios_get K' w)
  = pending K w
    ++ (if decide (K' = K)
        then [(next_id w, mkReq K' (current_key (app w)))] else []).
Proof.
  unfold pending. cbn [axios_get inflight]. rewrite filter_app.
  reflexivity.
Qed.

Lemma last_key_inv_reload_effect (w : World) :
  String.eqb (selectedItem (app w)) "" = false ->
  last_key_inv (reload_effect w).
Proof.
  intros Hsel. unfold reload_effect. rewrite Hsel. split.
  - reflexivity.
  - intros K.
    unfold loadMetrics_call, loadCostAnalysis_call, loadForecastData_call.
    rewrite !pending_axios_get.
    destruct K; cbn [decide]; rewrite ?app_nil_r;
      repeat (destruct (decide _); try congruence);
      rewrite ?app_nil_r, last_snoc; reflexivity.
Qed.

Lemma last_key_inv_update_selection (f : State -> State) (w : World) :
  last_key_inv w -> last_key_inv (update_selection f w).
Proof.
  intros Hw. unfold update_selection.
  destruct (decide _) as [Hkey | Hkey].
  - now apply (last_key_inv_same w).
  - destruct (String.eqb (selectedItem (app (with_app f w))) "") eqn:Hsel.
    + unfold reload_effect. rewrite Hsel.
      now apply last_key_inv_deselect.
    + now apply last_key_inv_reload_effect.
Qed.

Lemma last_key_inv_click (w : World) :
  last_key_inv w -> last_key_inv (step w ClickUpdate).
Proof.
  intros Hw. cbn [step].
  destruct (loading (app w)); [ exact Hw | ].
  destruct (String.eqb (selectedItem (app w)) "") eqn:Hitem; cbn [orb];
    [ exact Hw | ].
  destruct Hw as [Hsel Hpend]. specialize (Hsel Hitem). split.
  - intros _. exact Hsel.
  - intros K. unfold loadForecastData_call. rewrite pending_axios_get.
    destruct (decide (ForecastReq = K)) as [<- | HK].
    + rewrite last_snoc. exact Hsel.
    + rewrite app_nil_r. exact (Hpend K).
Qed.

(** Settling the oldest request of a loader removes the head of that
    loader's queue and leaves the other queues alone. *)
Lemma pending_after_drop (l : list (nat * Request)) (id : nat)
    (rq : Request) (K0 K : Kind) :
  NoDup (fst <$> l) ->
  head (filter (fun e => kind (snd e) = K0) l) = Some (id, rq) ->
  filter (fun e => kind (snd e) = K) (filter (fun e => fst e <> id) l)
  = if decide (K = K0)
    then tail (filter (fun e => kind (snd e) = K0) l)
    else filter (fun e => kind (snd e) = K) l.
Proof.
  induction l as [| e l IH]; intros Hnd Hhead; [ discriminate | ].
  rewrite fmap_cons in Hnd. apply NoDup_cons in Hnd as [Hnotin Hnd].
  rewrite (filter_cons (fun e => kind (snd e) = K0)) in Hhead |- *.
  destruct (decide (kind (snd e) = K0)) as [He | He].
  - cbn [head] in Hhead. injection Hhead as ->.
    cbn [fst snd] in *.
    rewrite filter_cons_False by (cbn [fst]; tauto).
    assert (filter (fun e => fst e <> id) l = l) as ->.
    { clear IH Hnd He. induction l as [| e l IH]; [ reflexivity | ].
      rewrite fmap_cons in Hnotin. apply not_elem_of_cons in Hnotin as [? ?].
      rewrite filter_cons_True by congruence. now rewrite IH. }
    cbn [tail]. destruct (decide (K = K0)) as [-> | HK]; [ reflexivity | ].
    rewrite filter_cons_False by (cbn [snd]; congruence). reflexivity.
  - assert (fst e <> id) as Hid.
    { intros <-. apply Hnotin.
      apply head_Some_elem_of, list_elem_of_filter in Hhead as [_ Hin].
      now apply (list_elem_of_fmap_2 fst) in Hin. }
    rewrite filter_cons_True by exact Hid.
    specialize (IH Hnd Hhead).
    rewrite (filter_cons (fun e => kind (snd e) = K)).
    destruct (decide (K = K0)) as [-> | HK].
    + destruct (decide (kind (snd e) = K0)); [ contradiction | exact IH ].
    + rewrite (filter_cons (fun e => kind (snd e) = K)).
      destruct (decide (kind (snd e) = K)); [ now rewrite IH | exact IH ].
Qed.

Lemma last_key_inv_settle (w : World) (id : nat) (d : JSON) :
  fresh_ids w ->
  in_order w (Settle id (Fulfilled d)) = true ->
  last_key_inv w -> last_key_inv (step w (Settle id (Fulfilled d))).
Proof.
  intros [_ Hnd] Hord [Hsel Hpend]. cbn [in_order step] in *.
  destruct (find_request id w) as [rq |] eqn:Hfind; [ | now split ].
  apply bool_decide_eq_true in Hord.
  assert (forall K,
            pending K (drop_request id w)
            = if decide (K = kind rq) then tail (pending (kind rq) w)
              else pending K w) as Hdrop.
  { intros K. unfold pending. cbn [drop_request inflight].
    now apply pending_after_drop with (rq := rq). }
  set (w'' := match kind rq with
              | ForecastReq => _ | CostReq => _ | MetricsReq => _ end).
  assert (inflight w'' = inflight (drop_request id w)
          /\ last_requested w'' = last_requested w
          /\ current_key (app w'') = current_key (app w)
          /\ forall K, origin w'' K
                       = if decide (K = kind rq) then Some (key rq)
                         else origin w K) as (Hin & Hlast & Hkey & Hor).
  { subst w''. destruct rq as [[] k]; repeat split; intros K;
      cbn [kind key]; cbn; destruct (decide _); reflexivity. }
  split.
  - rewrite Hlast, Hkey.
    replace (selectedItem (app w'')) with (itemId (current_key (app w'')))
      by reflexivity.
    rewrite Hkey. exact Hsel.
  - intros K.
    replace (pending K w'') with (pending K (drop_request id w))
      by (unfold pending; now rewrite Hin).
    rewrite Hdrop, Hor, Hlast.
    destruct (decide (K = kind rq)) as [-> | HK]; [ | exact (Hpend K) ].
    specialize (Hpend (kind rq)).
    destruct (pending (kind rq) w) as [| e rest]; [ discriminate | ].
    cbn [head] in Hord. injection Hord as ->. cbn [tail].
    destruct rest as [| e' rest].
    + cbn [last snd] in *. now symmetry.
    + rewrite last_cons_cons in Hpend.
      destruct (last (e' :: rest)) eqn:Hl; [ exact Hpend | ].
      rewrite last_cons in Hl. destruct (last rest); discriminate.
Qed.

Lemma last_key_inv_step (w : World) (ev : Event) :
  fresh_ids w ->
  in_order w ev = true -> no_rejection ev = true ->
  last_key_inv w -> last_key_inv (step w ev).
Proof.
  intros Hfresh Hord Hrej Hw.
  destruct ev as [[its |] | item | days | m | | id [d |]];
    try discriminate.
  - destruct its as [| first rest]; cbn [step fetchItems_resume].
    + now apply (last_key_inv_same w).
    + now apply last_key_inv_update_selection.
  - now apply (last_key_inv_same w).
  - now apply last_key_inv_update_selection.
  - now apply last_key_inv_update_selection.
  - now apply last_key_inv_update_selection.
  - now apply last_key_inv_click.
  - now apply last_key_inv_settle.
Qed.

Lemma last_key_inv_run (evs : list Event) (w : World) :
  fresh_ids w ->
  arrives_in_order w evs = true -> forallb no_rejection evs = true ->
  last_key_inv w -> last_key_inv (run w evs).
Proof.
  revert w. induction evs as [| ev evs IH]; intros w Hfresh Hord Hrej Hw;
    [ exact Hw | ].
  cbn [arrives_in_order forallb] in Hord, Hrej.
  apply andb_true_iff in Hord as [Hord1 Hord].
  apply andb_true_iff in Hrej as [Hrej1 Hrej].
  cbn [run fold_left]. fold (run (step w ev) evs).
  apply IH; try assumption.
  - now apply fresh_ids_step.
  - now apply last_key_inv_step.
Qed.


(** *** The mounted component *)

Import Live.

Lemma live_run_unmounted (evs : list Event) :
  live_run Unmounted evs = Unmounted.
Proof. induction evs as [| ev evs IH]; [ reflexivity | exact IH ]. Qed.

Lemma live_run_cons (c : Component) (ev : Event) (evs : list Event) :
  live_run c (ev :: evs) = live_run (live_step c ev) evs.
Proof. reflexivity. Qed.

(** A component that is still mounted went through the states of the
    handlers. *)
Lemma live_run_mounted (evs : list Event) (w w' : World) :
  live_run (Mounted w) evs = Mounted w' -> w' = run w evs.
Proof.
  revert w. induction evs as [| ev evs IH]; intros w Hrun.
  - now injection Hrun as <-.
  - rewrite live_run_cons in Hrun. cbn [live_step] in Hrun.
    unfold commit in Hrun.
    destruct (mounts (app (step w ev))).
    + apply IH in Hrun. exact Hrun.
    + rewrite live_run_unmounted in Hrun. discriminate.
Qed.

Lemma live_step_mounts (w : World) (ev : Event) :
  mounts (app (step w ev)) = true ->
  live_step (Mounted w) ev = Mounted (step w ev).
Proof. intros H. cbn [live_step]. unfold commit. now rewrite H. Qed.

(** The charts throw or not whatever their title says. *)
Lemma forecast_block_item (item item' : string) (fd : JSON) :
  forecast_block item fd = forecast_block item' fd.
Proof.
  unfold forecast_block. destruct (truthy fd); [ | reflexivity ].
  unfold createForecastChart, createPriceChart.
  destruct (negb (truthy fd) || negb (truthy_v (get fd "forecasts")));
    [ reflexivity | ].
  destruct (get fd "forecasts") as [f |]; [ | reflexivity ].
  repeat (match goal with
          | |- context [js_map ?f ?g] => destruct (js_map f g)
          end; cbn [JS.bind]; try reflexivity).
Qed.

(** Whether a state can be rendered depends on its three result slots
    only. *)
Lemma mounts_ext (s s' : State) :
  forecastData s = forecastData s' ->
  metrics s = metrics s' ->
  costAnalysis s = costAnalysis s' ->
  mounts s = mounts s'.
Proof.
  intros Hf Hm Hc. unfold mounts, render_app.
  rewrite Hf, Hm, Hc, (forecast_block_item (selectedItem s) (selectedItem s')).
  destruct (metrics_block _ _); cbn [JS.bind]; [ | reflexivity ].
  destruct (forecast_block _ _); cbn [JS.bind]; [ | reflexivity ].
  destruct (forallb _ _); reflexivity.
Qed.

Lemma step_mounts (w : World) (ev : Event) :
  no_fulfilment ev = true ->
  mounts (app (step w ev)) = mounts (app w).
Proof.
  intros Hev. apply mounts_ext.
  - exact (step_slot ForecastReq w ev Hev).
  - exact (step_slot MetricsReq w ev Hev).
  - exact (step_slot CostReq w ev Hev).
Qed.

(** The fixture [loaded_world] is a state of the mounted component: each
    of its three responses renders. *)
Example loaded_world_mounted :
  live_run (Mounted initial_world)
    [ SelectItem "ITEM001";
      Settle 0 (Fulfilled sample_forecast);
      Settle 1 (Fulfilled (JObj [("avg_cost", JNum 4)]));
      Settle 2 (Fulfilled sample_metrics) ]
  = Mounted loaded_world.
Proof. vm_compute. reflexivity. Qed.

(** C2 as stated fails: the three responses for ITEM001 are fulfilled
    and rendered, then the forecast request for ITEM002 is rejected.  The
    component stays mounted, the screen shows the error, and both charts
    are still rendered, built from the response for ITEM001 under the
    title of ITEM002. *)
Lemma failed_forecast_still_renders_charts :
  exists w',
    live_run (Mounted initial_world)
      [ SelectItem "ITEM001";
        Settle 0 (Fulfilled sample_forecast);
        Settle 1 (Fulfilled sample_cost);
        Settle 2 (Fulfilled sample_metrics);
        SelectItem "ITEM002";
        Settle 3 Rejected ]
    = Mounted w'
    /\ render_app (app w') = Normal (render (app w'))
    /\ error_card (render (app w')) = Some "Failed to load forecast data"
    /\ charts (render (app w'))
       = Some (createForecastChart "ITEM002" sample_forecast,
               createPriceChart "ITEM002" sample_forecast)
    /\ (exists demand,
          createForecastChart "ITEM002" sample_forecast
          = Normal (Some demand)
          /\ Plotly.title (Plotly.layout demand)
             = "Demand Forecast - ITEM002"
          /\ center <$> series_of demand = Some [Some (JNum 10)])
    /\ origin w' ForecastReq = Some (mkKey "ITEM001" 90 "prophet")
    /\ current_key (app w') = mkKey "ITEM002" 90 "prophet"
    /\ model_information (render (app w')) = true.
Proof.
  eexists. split; [ vm_compute; reflexivity | ].
  repeat split; try reflexivity.
  eexists. repeat split; reflexivity.
Qed.

(** *** One refresh cycle with a failing forecast *)

Lemma settle_find_same (w : World) (id : nat) (o : Outcome JSON) :
  find_request id (step w (Settle id o)) = None.
Proof.
  cbn [step]. destruct (find_request id w) as [rq |] eqn:Hfind;
    [ | exact Hfind ].
  assert (find_request id (drop_request id w) = None) as Hgone.
  { unfold find_request. cbn [drop_request inflight].
    destruct (List.find _ _) as [e |] eqn:He; [ exfalso | reflexivity ].
    apply List.find_some in He as [Hin Heq].
    apply list_elem_of_In, list_elem_of_filter in Hin as [Hne _].
    apply Nat.eqb_eq in Heq. contradiction. }
  destruct rq as [[] k], o; exact Hgone.
Qed.

Lemma settle_slot_own (w : World) (id : nat) (rq : Request) (d : JSON) :
  find_request id w = Some rq ->
  slot (kind rq) (app (step w (Settle id (Fulfilled d)))) = d.
Proof.
  intros Hfind. rewrite (settle_slot w id rq (Fulfilled d) _ Hfind).
  destruct (decide (kind rq = kind rq)); [ reflexivity | contradiction ].
Qed.

Lemma settle_slot_other (w : World) (id : nat) (rq : Request)
    (o : Outcome JSON) (K : Kind) :
  find_request id w = Some rq -> kind rq <> K ->
  slot K (app (step w (Settle id o))) = slot K (app w).
Proof.
  intros Hfind HK. rewrite (settle_slot w id rq o K Hfind).
  destruct o; [ | reflexivity ].
  destruct (decide (kind rq = K)); [ contradiction | reflexivity ].
Qed.

(** While the three requests of one cycle settle, in any order and any
    number of times, the component stays mounted provided every
    combination of the old and the new optional results can be
    rendered. *)
Lemma cycle_stays_mounted (n : nat) (cost_data metrics_data : JSON)
    (fd0 m0 c0 : JSON) (evs : list Event) :
  (forall s,
     forecastData s = fd0 ->
     metrics s = m0 \/ metrics s = metrics_data ->
     costAnalysis s = c0 \/ costAnalysis s = cost_data ->
     mounts s = true) ->
  Forall (fun ev =>
            ev = Settle n Rejected
            \/ ev = Settle (S n) (Fulfilled cost_data)
            \/ ev = Settle (S (S n)) (Fulfilled metrics_data)) evs ->
  forall w,
    (forall rq, find_request n w = Some rq -> kind rq = ForecastReq) ->
    (forall rq, find_request (S n) w = Some rq -> kind rq = CostReq) ->
    (forall rq, find_request (S (S n)) w = Some rq ->
                kind rq = MetricsReq) ->
    forecastData (app w) = fd0 ->
    metrics (app w) = m0 \/ metrics (app w) = metrics_data ->
    costAnalysis (app w) = c0 \/ costAnalysis (app w) = cost_data ->
    live_run (Mounted w) evs = Mounted (run w evs).
Proof.
  intros Hmounts Hevs.
  induction Hevs as [| ev evs Hev _ IH]; intros w HF HC HM Hfd Hm Hc;
    [ reflexivity | ].
  assert (forecastData (app (step w ev)) = fd0
          /\ (metrics (app (step w ev)) = m0
              \/ metrics (app (step w ev)) = metrics_data)
          /\ (costAnalysis (app (step w ev)) = c0
              \/ costAnalysis (app (step w ev)) = cost_data)) as Hslots.
  { destruct Hev as [-> | [-> | ->]].
    - pose proof (fun K => step_slot K w (Settle n Rejected) eq_refl) as H.
      pose proof (H ForecastReq) as H1.
      pose proof (H MetricsReq) as H2.
      pose proof (H CostReq) as H3.
      cbn [slot] in H1, H2, H3. rewrite H1, H2, H3. tauto.
    - destruct (find_request (S n) w) as [rq |] eqn:Hfind;
        [ | rewrite settle_unknown by exact Hfind; tauto ].
      pose proof (HC rq eq_refl) as Hkind.
      pose proof (settle_slot_own w (S n) rq cost_data Hfind) as H3.
      pose proof (settle_slot_other w (S n) rq (Fulfilled cost_data)
                    ForecastReq Hfind) as H1.
      pose proof (settle_slot_other w (S n) rq (Fulfilled cost_data)
                    MetricsReq Hfind) as H2.
      rewrite Hkind in H1, H2, H3. cbn [slot] in H1, H2, H3.
      rewrite H1, H2, H3 by discriminate. tauto.
    - destruct (find_request (S (S n)) w) as [rq |] eqn:Hfind;
        [ | rewrite settle_unknown by exact Hfind; tauto ].
      pose proof (HM rq eq_refl) as Hkind.
      pose proof (settle_slot_own w (S (S n)) rq metrics_data Hfind) as H2.
      pose proof (settle_slot_other w (S (S n)) rq (Fulfilled metrics_data)
                    ForecastReq Hfind) as H1.
      pose proof (settle_slot_other w (S (S n)) rq (Fulfilled metrics_data)
                    CostReq Hfind) as H3.
      rewrite Hkind in H1, H2, H3. cbn [slot] in H1, H2, H3.
      rewrite H1, H2, H3 by discriminate. tauto. }
  destruct Hslots as (Hfd' & Hm' & Hc').
  rewrite live_run_cons, live_step_mounts by now apply Hmounts.
  cbn [run fold_left]. fold (run (step w ev) evs).
  apply IH; try assumption.
  - intros rq. destruct Hev as [-> | [-> | ->]];
      rewrite ?settle_find_same, ?settle_find by lia;
      [ discriminate | apply HF | apply HF ].
  - intros rq. destruct Hev as [-> | [-> | ->]];
      rewrite ?settle_find_same, ?settle_find by lia;
      [ apply HC | discriminate | apply HC ].
  - intros rq. destruct Hev as [-> | [-> | ->]];
      rewrite ?settle_find_same, ?settle_find by lia;
      [ apply HM | apply HM | discriminate ].
Qed.

(** C3.  In one refresh cycle in which the forecast request is rejected
    and the cost-analysis and metrics requests are fulfilled with data
    that the component can render, whatever the order in which the three
    settle, the component stays mounted and its state ends with an error
    and with both optional slots filled; and the rejection of an optional
    request leaves the error slot as it was. *)
Theorem forecast_fails_optionals_succeed (w : World) (k : SelectionKey)
    (evs : list Event) (cost_data metrics_data : JSON) :
  reachable w ->
  String.eqb (itemId k) "" = false ->
  cost_data <> JNull -> metrics_data <> JNull ->
  (forall m c,
     m = metrics (app w) \/ m = metrics_data ->
     c = costAnalysis (app w) \/ c = cost_data ->
     mounts (setMetrics m (setCostAnalysis c (app w))) = true) ->
  evs ≡ₚ [ Settle (next_id w) Rejected;
           Settle (S (next_id w)) (Fulfilled cost_data);
           Settle (S (S (next_id w))) (Fulfilled metrics_data) ] ->
  (let w' := run (refresh k w) evs in
   live_run (Mounted (refresh k w)) evs = Mounted w'
   /\ error (app w') = Some "Failed to load forecast data"
   /\ costAnalysis (app w') = cost_data
   /\ metrics (app w') = metrics_data
   /\ error (app w') <> None
   /\ costAnalysis (app w') <> JNull
   /\ metrics (app w') <> JNull)
  /\ (forall w0 id rq,
        find_request id w0 = Some rq -> kind rq <> ForecastReq ->
        error (app (step w0 (Settle id Rejected))) = error (app w0)).
Proof.
  intros Hreach Hsel HC HM Hmounts Hperm. split.
  - assert (fresh_ids (with_app (select k) w)) as Hfresh.
    { apply (fresh_ids_same w); [ reflexivity .. | ].
      now apply fresh_ids_reachable. }
    destruct (reload_effect_find _ Hfresh Hsel) as (HF & HCo & HMe).
    change (next_id (with_app (select k) w)) with (next_id w) in *.
    fold (refresh k w) in *.
    assert (forall K, slot K (app (refresh k w)) = slot K (app w)) as Hslots.
    { intros K. unfold refresh. rewrite reload_effect_slot.
      destruct K; reflexivity. }
    set (w1 := refresh k w) in *.
    set (n := next_id w) in *.
    assert (live_run (Mounted w1) evs = Mounted (run w1 evs)) as Hlive.
    { apply (cycle_stays_mounted n cost_data metrics_data
               (forecastData (app w)) (metrics (app w))
               (costAnalysis (app w))).
      - intros s Hfd Hm Hc.
        rewrite (mounts_ext s
                   (setMetrics (metrics s)
                      (setCostAnalysis (costAnalysis s) (app w))))
          by (exact Hfd || reflexivity).
        now apply Hmounts.
      - rewrite Forall_forall. intros ev Hev.
        rewrite Hperm in Hev.
        repeat (apply elem_of_cons in Hev as [-> | Hev]); try tauto.
        now apply elem_of_nil in Hev.
      - intros rq. rewrite HF. now intros [= <-].
      - intros rq. rewrite HCo. now intros [= <-].
      - intros rq. rewrite HMe. now intros [= <-].
      - exact (Hslots ForecastReq).
      - left. exact (Hslots MetricsReq).
      - left. exact (Hslots CostReq). }
    assert (forall l,
              l = [Settle n Rejected; Settle (S n) (Fulfilled cost_data);
                   Settle (S (S n)) (Fulfilled metrics_data)]
              \/ l = [Settle (S n) (Fulfilled cost_data); Settle n Rejected;
                      Settle (S (S n)) (Fulfilled metrics_data)]
              \/ l = [Settle (S n) (Fulfilled cost_data);
                      Settle (S (S n)) (Fulfilled metrics_data);
                      Settle n Rejected]
              \/ l = [Settle n Rejected;
                      Settle (S (S n)) (Fulfilled metrics_data);
                      Settle (S n) (Fulfilled cost_data)]
              \/ l = [Settle (S (S n)) (Fulfilled metrics_data);
                      Settle n Rejected;
                      Settle (S n) (Fulfilled cost_data)]
              \/ l = [Settle (S (S n)) (Fulfilled metrics_data);
                      Settle (S n) (Fulfilled cost_data);
                      Settle n Rejected] ->
              error (app (run w1 l)) = Some "Failed to load forecast data"
              /\ slot CostReq (app (run w1 l)) = cost_data
              /\ slot MetricsReq (app (run w1 l)) = metrics_data)
      as Horders.
    { intros l Hl.
      repeat (destruct Hl as [-> | Hl]); try subst l;
        cbn [run fold_left]; (split; [ | split ]);
        repeat first
          [ erewrite settle_error by settled
          | erewrite settle_slot by settled ];
        reflexivity. }
    destruct (Horders evs) as (He & Hc & Hm).
    { symmetry in Hperm. apply permutations_Permutation in Hperm.
      cbn in Hperm.
      repeat (apply elem_of_cons in Hperm as [-> | Hperm]);
        [ tauto .. | now apply elem_of_nil in Hperm ]. }
    cbn [slot] in Hc, Hm. cbn zeta.
    rewrite He, Hc, Hm. repeat split; try assumption. discriminate.
  - intros w0 id rq Hfind Hkind.
    rewrite (settle_error _ _ _ _ Hfind).
    destruct (kind rq); [ congruence | reflexivity | reflexivity ].
Qed.

Lemma forecast_fails_optionals_succeed_witness :
  let w' :=
    run (refresh (mkKey "ITEM001" 90 "prophet") initial_world)
      [ Settle 2 (Fulfilled sample_metrics);
        Settle 0 Rejected;
        Settle 1 (Fulfilled sample_cost) ] in
  live_run (Mounted (refresh (mkKey "ITEM001" 90 "prophet") initial_world))
    [ Settle 2 (Fulfilled sample_metrics);
      Settle 0 Rejected;
      Settle 1 (Fulfilled sample_cost) ]
  = Mounted w'
  /\ error (app w') <> None
  /\ costAnalysis (app w') <> JNull
  /\ metrics (app w') <> JNull.
Proof.
  assert (sample_cost <> JNull) as HC by discriminate.
  assert (sample_metrics <> JNull) as HM by discriminate.
  destruct (forecast_fails_optionals_succeed initial_world
              (mkKey "ITEM001" 90 "prophet")
              [ Settle 2 (Fulfilled sample_metrics);
                Settle 0 Rejected;
                Settle 1 (Fulfilled sample_cost) ]
              sample_cost sample_metrics)
    as ((Hlive & _ & _ & _ & He & Hc & Hm) & _).
  - exists []. reflexivity.
  - reflexivity.
  - exact HC.
  - exact HM.
  - intros m c [-> | ->] [-> | ->]; vm_compute; reflexivity.
  - cbn [next_id initial_world].
    etransitivity; [ apply Permutation_swap | ].
    apply Permutation_skip, Permutation_swap.
  - split; [ exact Hlive | ].
    split; [ exact He | ]. split; [ exact Hc | exact Hm ].
Defined.

(** *** The last selection requested, and what the slots hold *)

Lemma reload_effect_origin (w : World) (K : Kind) :
  origin (reload_effect w) K = origin w K.
Proof. unfold reload_effect. destruct (String.eqb _ _); reflexivity. Qed.

Lemma update_selection_origin (f : State -> State) (w : World)
    (K : Kind) :
  origin (update_selection f w) K = origin w K.
Proof.
  unfold update_selection.
  match goal with
  | |- context [decide ?P] => destruct (decide P); [ reflexivity | ]
  end.
  now rewrite reload_effect_origin.
Qed.

Lemma step_origin (K : Kind) (w : World) (ev : Event) :
  no_fulfilment ev = true -> origin (step w ev) K = origin w K.
Proof.
  destruct ev as [[its |] | item | days | m | | id [d |]];
    intros Hev; try discriminate; cbn [step].
  - destruct its as [| first rest]; cbn [fetchItems_resume];
      [ reflexivity | apply update_selection_origin ].
  - reflexivity.
  - apply update_selection_origin.
  - apply update_selection_origin.
  - apply update_selection_origin.
  - destruct (_ || _); reflexivity.
  - destruct (find_request id w) as [[[] k] |]; reflexivity.
Qed.

Lemma settle_origin (w : World) (id : nat) (rq : Request) (d : JSON)
    (K : Kind) :
  find_request id w = Some rq ->
  origin (step w (Settle id (Fulfilled d))) K
  = if decide (K = kind rq) then Some (key rq) else origin w K.
Proof.
  intros Hfind. cbn [step]. rewrite Hfind.
  destruct rq as [[] k], K; reflexivity.
Qed.

(** Every slot holds the answer of the server to the request that was
    committed last, as long as the responses are the server's. *)
Lemma committed_step (respond : Request -> JSON) (w : World) (ev : Event) :
  answers respond w ev ->
  (forall K, slot K (app w)
             = match origin w K with
               | Some k => respond (mkReq K k)
               | None => JNull
               end) ->
  forall K, slot K (app (step w ev))
            = match origin (step w ev) K with
              | Some k => respond (mkReq K k)
              | None => JNull
              end.
Proof.
  intros Hans Hw K.
  destruct (no_fulfilment ev) eqn:Hno.
  - rewrite (step_slot K w ev Hno), (step_origin K w ev Hno). apply Hw.
  - destruct ev as [ | | | | | id [d |]]; try discriminate.
    cbn [answers] in Hans.
    destruct (find_request id w) as [rq |] eqn:Hfind;
      [ | rewrite settle_unknown by exact Hfind; apply Hw ].
    rewrite (settle_slot w id rq _ K Hfind), (settle_origin w id rq d K Hfind).
    destruct (decide (kind rq = K)) as [<- | HK].
    + destruct (decide (kind rq = kind rq)); [ | contradiction ].
      rewrite Hans. destruct rq; reflexivity.
    + destruct (decide (K = kind rq)); [ congruence | apply Hw ].
Qed.

Lemma committed_run (respond : Request -> JSON) (evs : list Event)
    (w : World) :
  served_by respond w evs ->
  (forall K, slot K (app w)
             = match origin w K with
               | Some k => respond (mkReq K k)
               | None => JNull
               end) ->
  forall K, slot K (app (run w evs))
            = match origin (run w evs) K with
              | Some k => respond (mkReq K k)
              | None => JNull
              end.
Proof.
  revert w. induction evs as [| ev evs IH]; intros w Hserved Hw;
    [ exact Hw | ].
  destruct Hserved as [Hans Hserved].
  cbn [run fold_left]. fold (run (step w ev) evs).
  apply IH; [ exact Hserved | ]. now apply committed_step.
Qed.

(** C1, as the code has it.  The component keeps no record of the latest
    selection requested and commits every response when it arrives.  When
    the responses arrive in the order in which their requests were issued
    and none is rejected, then, in the mounted component, once a loader
    has no request in flight its slot holds the server's answer to the
    last selection requested, which is the selection on the screen. *)
Theorem in_order_last_key_wins (respond : Request -> JSON)
    (evs : list Event) (K : Kind) (w : World) :
  live_run (Mounted initial_world) evs = Mounted w ->
  arrives_in_order initial_world evs = true ->
  forallb no_rejection evs = true ->
  served_by respond initial_world evs ->
  pending K w = [] ->
  slot K (app w) = answer_to_last respond K w
  /\ origin w K = last_requested w
  /\ (String.eqb (selectedItem (app w)) "" = false ->
      origin w K = Some (current_key (app w))
      /\ slot K (app w) = respond (mkReq K (current_key (app w)))).
Proof.
  intros Hlive Hord Hrej Hserved Hnone.
  apply live_run_mounted in Hlive. subst w.
  assert (last_key_inv (run initial_world evs)) as [Hsel Hpend].
  { apply last_key_inv_run; try assumption.
    - split; constructor.
    - split; [ discriminate | intros K'; reflexivity ]. }
  pose proof (committed_run respond evs initial_world Hserved) as Hslot.
  specialize (Hslot (fun K' => match K' with
                               | ForecastReq | CostReq | MetricsReq
                                 => eq_refl
                               end) K).
  specialize (Hpend K). rewrite Hnone in Hpend. cbn [last] in Hpend.
  unfold answer_to_last. rewrite Hslot, Hpend.
  split; [ reflexivity | ]. split; [ reflexivity | ].
  intros Hitem. rewrite (Hsel Hitem). split; reflexivity.
Qed.

Lemma in_order_last_key_wins_witness :
  exists w,
    live_run (Mounted initial_world)
      [ SelectItem "ITEM001"; SelectItem "ITEM002";
        Settle 0 (Fulfilled (forecast_for "ITEM001"));
        Settle 3 (Fulfilled (forecast_for "ITEM002")) ]
    = Mounted w
    /\ forecastData (app w) = forecast_for "ITEM002"
    /\ origin w ForecastReq = Some (mkKey "ITEM002" 90 "prophet").
Proof.
  eexists. split; [ vm_compute; reflexivity | ].
  match goal with
  | |- forecastData (app ?w) = _ /\ _ =>
      destruct (in_order_last_key_wins sample_server
                  [ SelectItem "ITEM001"; SelectItem "ITEM002";
                    Settle 0 (Fulfilled (forecast_for "ITEM001"));
                    Settle 3 (Fulfilled (forecast_for "ITEM002")) ]
                  ForecastReq w)
        as (_ & _ & Hcur)
  end.
  - vm_compute. reflexivity.
  - vm_compute. reflexivity.
  - vm_compute. reflexivity.
  - vm_compute. repeat split.
  - vm_compute. reflexivity.
  - destruct Hcur as [Ho Hs]; [ vm_compute; reflexivity | ].
    split; [ exact Hs | exact Ho ].
Defined.

(** C1 as stated fails: two selections in rapid succession, the response
    to the second arrives first and the response to the first arrives
    late, both being what the server answers and both rendering.  The
    late response is committed: the mounted component ends with the
    forecast of the superseded selection in [forecastData] and on the
    screen, while the last selection requested, and the one in the
    controls, is the second. *)
Lemma stale_response_overwrites :
  exists w,
    live_run (Mounted initial_world)
      [ SelectItem "ITEM001"; SelectItem "ITEM002";
        Settle 3 (Fulfilled (forecast_for "ITEM002"));
        Settle 0 (Fulfilled (forecast_for "ITEM001")) ]
    = Mounted w
    /\ served_by sample_server initial_world
         [ SelectItem "ITEM001"; SelectItem "ITEM002";
           Settle 3 (Fulfilled (forecast_for "ITEM002"));
           Settle 0 (Fulfilled (forecast_for "ITEM001")) ]
    /\ last_requested w = Some (mkKey "ITEM002" 90 "prophet")
    /\ current_key (app w) = mkKey "ITEM002" 90 "prophet"
    /\ pending ForecastReq w = []
    /\ forecastData (app w) = forecast_for "ITEM001"
    /\ forecastData (app w) <> answer_to_last sample_server ForecastReq w
    /\ model_information (render (app w)) = true
    /\ render_app (app w) = Normal (render (app w))
    /\ origin w ForecastReq = Some (mkKey "ITEM001" 90 "prophet")
    /\ origin w ForecastReq <> last_requested w.
Proof.
  eexists. split; [ vm_compute; reflexivity | ].
  split; [ vm_compute; repeat split | ].
  repeat split; try (vm_compute; reflexivity);
    intros Heq; vm_compute in Heq; discriminate Heq.
Qed.

End FetchOrchestrator.

(** ** Load harness *)

Section LoadHarness.

Import K6 LoadTest.

Local Open Scope Q_scope.

Variable fmul : Q -> Q -> Q.
Variable coerced_gt_zero : JSON -> bool.

Lemma js_lt_iff (a b : Q) : js_lt a b = true <-> a < b.
Proof.
  unfold js_lt. rewrite negb_true_iff. split.
  - intros H. apply Qnot_le_lt. intros Hle.
    apply Qle_bool_iff in Hle. congruence.
  - intros H. destruct (Qle_bool b a) eqn:Hle; [ | reflexivity ].
    apply Qle_bool_iff in Hle. exfalso. exact (Qlt_not_le _ _ H Hle).
Qed.

(** *** The aggregates across the runtime calls *)

Lemma check_aggregates {A} (val : A) (sets : list (string * (A -> bool)))
    (env : Env) (st : VUState) :
  aggregates (snd (check val sets env st)) = aggregates st.
Proof. reflexivity. Qed.

Lemma http_get_aggregates (url : string) (env : Env) (st : VUState) :
  aggregates (snd (http_get url env st)) = aggregates st.
Proof. reflexivity. Qed.

Lemma Math_random_aggregates (env : Env) (st : VUState) :
  aggregates (snd (Math_random env st)) = aggregates st.
Proof. reflexivity. Qed.

Lemma sleep_aggregates (ms : Z) (env : Env) (st : VUState) :
  aggregates (snd (sleep ms env st)) = aggregates st.
Proof. reflexivity. Qed.

(** One probe: a GET followed by a status check. *)
Lemma probe_aggregates (url label : string) (env : Env) (st : VUState) :
  aggregates
    (snd ((resp <~ http_get url ;;
           _ <~ check resp [(label, status_is_200)] ;;
           ret tt) env st))
  = aggregates st.
Proof. reflexivity. Qed.

Lemma default_function_aggregates (env : Env) (st : VUState) :
  let url := primary_url fmul env st in
  aggregates (snd (default_function fmul coerced_gt_zero env st))
  = (errors st ++ [primary_sample coerced_gt_zero (server env url)],
     response_time st ++ [latency env url]).
Proof.
  unfold default_function, primary_url, drawn, pick, primary_sample.
  unfold bind, ret, Math_random, Date_now, http_get, responseTime_add,
    check, errorRate_add, sleep.
  cbn [fst snd errors response_time checks http_reqs random_calls now].
  set (url := forecast_url _ _ _).
  destruct (negb (forallb _ _));
    repeat (match goal with
            | |- context [js_lt ?a ?b] => destruct (js_lt a b)
            end;
            cbn [fst snd errors response_time checks http_reqs
                 random_calls now]);
    unfold aggregates;
    cbn [fst snd errors response_time checks http_reqs random_calls now];
    f_equal; f_equal; f_equal; lia.
Qed.

(** *** The primary record *)

Lemma primary_sample_zero (r : Response) :
  primary_sample coerced_gt_zero r = 0%Z <->
  status r = 200%Z
  /\ timings_duration r < 300
  /\ response_has_forecasts coerced_gt_zero r = true
  /\ mae_is_reasonable r = true.
Proof.
  unfold primary_sample, forecast_checks. cbn [forallb snd].
  rewrite andb_true_r.
  unfold status_is_200, response_time_lt_300ms.
  rewrite <- (js_lt_iff (timings_duration r) 300).
  rewrite <- (Z.eqb_eq (status r) 200).
  destruct (status r =? 200)%Z, (js_lt (timings_duration r) 300),
    (response_has_forecasts coerced_gt_zero r), (mae_is_reasonable r);
    cbn [andb negb];
    (split;
     [ intros H; try discriminate H; repeat split; reflexivity
     | intros (H1 & H2 & H3 & H4); try discriminate; reflexivity ]).
Qed.

Lemma primary_sample_bit (r : Response) :
  primary_sample coerced_gt_zero r = 0%Z
  \/ primary_sample coerced_gt_zero r = 1%Z.
Proof. unfold primary_sample. destruct (negb _); tauto. Qed.

(** The two body checks on a body that is an object whose [forecasts]
    is an array. *)
Lemma body_checks_of_object (r : Response) (data : JSON)
    (points : list JSON) :
  parsed_body r = Normal data ->
  get data "forecasts" = Some (JArr points) ->
  (response_has_forecasts coerced_gt_zero r = true <-> points <> [])
  /\ (mae_is_reasonable r = true <->
      get data "mae_demand" <> Some JNull
      /\ get data "mae_price" <> Some JNull).
Proof.
  intros Hbody Hget.
  assert (forall k, member (Some data) k = Normal (get data k)) as Hmem.
  { intros k. destruct data; try discriminate. reflexivity. }
  unfold response_has_forecasts, mae_is_reasonable.
  rewrite Hbody. cbn [JS.bind]. rewrite !Hmem, Hget. cbn [JS.bind].
  split.
  - cbn [truthy length_of gt_zero]. rewrite js_lt_iff.
    destruct points as [| pt points]; cbn [length].
    + split; [ intros H; discriminate H | congruence ].
    + split; [ discriminate | intros _ ].
      unfold Qlt. cbn. lia.
  - destruct (get data "mae_demand") as [[] |];
      destruct (get data "mae_price") as [[] |];
      cbn; intuition congruence.
Qed.

(** C4, as the script has it.  The sample a cycle adds to [errors] is 0
    (a success) exactly when all four named checks of the primary response
    hold: the status is 200, [timings.duration] is below 300 ms, the body
    has forecasts, and the MAE check passes.  For a body that is an
    object with an array of forecasts the last two read: the array is not
    empty, and neither [mae_demand] nor [mae_price] is [null]. *)
Theorem primary_record (env : Env) (st : VUState) :
  let r := server env (primary_url fmul env st) in
  let st' := snd (default_function fmul coerced_gt_zero env st) in
  exists e,
    errors st' = errors st ++ [e]
    /\ (e = 0%Z \/ e = 1%Z)
    /\ (e = 0%Z <->
        status r = 200%Z
        /\ timings_duration r < 300
        /\ response_has_forecasts coerced_gt_zero r = true
        /\ mae_is_reasonable r = true)
    /\ (forall data points,
          parsed_body r = Normal data ->
          get data "forecasts" = Some (JArr points) ->
          (e = 0%Z <->
           status r = 200%Z
           /\ timings_duration r < 300
           /\ points <> []
           /\ get data "mae_demand" <> Some JNull
           /\ get data "mae_price" <> Some JNull)).
Proof.
  intros r st'.
  pose proof (default_function_aggregates env st) as Hagg.
  cbn zeta in Hagg. fold r in Hagg. fold st' in Hagg.
  unfold aggregates in Hagg. injection Hagg as Herr _.
  exists (primary_sample coerced_gt_zero r).
  split; [ exact Herr | ].
  split; [ apply primary_sample_bit | ].
  split; [ apply primary_sample_zero | ].
  intros data points Hbody Hget.
  destruct (body_checks_of_object r data points Hbody Hget) as [Hf Hm].
  rewrite primary_sample_zero, Hf, Hm. tauto.
Qed.

(** C10.  A cycle adds exactly one sample to [response_time], the wall
    time of the primary request, and exactly one to [errors], whatever
    the random draws decide about the probes; and neither a GET nor a
    [check] touches the two aggregates. *)
Theorem cycle_adds_one_sample_each (env : Env) (st : VUState) :
  let st' := snd (default_function fmul coerced_gt_zero env st) in
  (exists e d,
     errors st' = errors st ++ [e]
     /\ response_time st' = response_time st ++ [d]
     /\ (e = 0%Z \/ e = 1%Z)
     /\ d = latency env (primary_url fmul env st))
  /\ length (errors st') = S (length (errors st))
  /\ length (response_time st') = S (length (response_time st))
  /\ (forall (resp : Response) sets env0 st0,
        aggregates (snd (check resp sets env0 st0)) = aggregates st0)
  /\ (forall url label env0 st0,
        aggregates
          (snd ((resp <~ http_get url ;;
                 _ <~ check resp [(label, status_is_200)] ;;
                 ret tt) env0 st0))
        = aggregates st0).
Proof.
  intros st'.
  pose proof (default_function_aggregates env st) as Hagg.
  cbn zeta in Hagg. fold st' in Hagg.
  unfold aggregates in Hagg. injection Hagg as Herr Hrt.
  split; [ | split; [ | split; [ | split ] ] ].
  - eexists. eexists. split; [ exact Herr | ]. split; [ exact Hrt | ].
    split; [ apply primary_sample_bit | reflexivity ].
  - rewrite Herr, length_app. cbn [length]. lia.
  - rewrite Hrt, length_app. cbn [length]. lia.
  - intros. apply check_aggregates.
  - intros. apply probe_aggregates.
Qed.

(** [(v || 0) < c] for a positive literal [c]: a zero or absent [v]
    reads as 0, which is below [c] as [v] itself is. *)
Lemma js_lt_or_zero (v c : Q) :
  0 < c -> js_lt (or_zero (Some v)) c = js_lt v c.
Proof.
  intros Hc. cbn [or_zero].
  destruct (Qeq_bool v 0) eqn:Hv; [ | reflexivity ].
  apply Qeq_bool_iff in Hv.
  assert (js_lt 0 c = true) as -> by now apply js_lt_iff.
  symmetry. apply js_lt_iff. now rewrite Hv.
Qed.

(** C5.  The report carries one PASS/FAIL verdict for the p95 threshold
    (PASS exactly when the p95 latency is below 300 ms, or absent) and
    one for the error-rate threshold (PASS exactly when the rate of
    failed requests times 100 is below 10), and the overall verdict is
    PASSED exactly when the summary has a p95 latency below 300 ms and
    the rate of failed requests is below 0.1. *)
Theorem summary_verdict (data : SummaryData) :
  let report := handleSummary fmul data in
  (test_verdict report = "PASSED" <->
   (exists p95, http_req_duration_p95 data = Some p95 /\ p95 < 300)
   /\ http_req_failed_rate data < 1 # 10)
  /\ (test_verdict report = "PASSED" \/ test_verdict report = "FAILED")
  /\ (threshold_p95 report = "PASS" \/ threshold_p95 report = "FAIL")
  /\ (threshold_error_rate report = "PASS"
      \/ threshold_error_rate report = "FAIL")
  /\ (threshold_p95 report = "PASS" <->
      match http_req_duration_p95 data with
      | Some p95 => p95 < 300
      | None => True
      end)
  /\ (threshold_error_rate report = "PASS" <->
      fmul (http_req_failed_rate data) 100 < 10)
  /\ load_test_results_json report = data.
Proof.
  cbn zeta. unfold handleSummary.
  cbn [test_verdict threshold_p95 threshold_error_rate
       load_test_results_json].
  split; [ | split; [ | split; [ | split; [ | split; [ | split ] ] ] ] ].
  - split.
    + intros H.
      destruct (http_req_duration_p95 data) as [p95 |]; cbn [maybe_lt andb] in H;
        [ | discriminate ].
      destruct (js_lt p95 300) eqn:Hp; [ | discriminate ].
      destruct (js_lt (http_req_failed_rate data) (1 # 10)) eqn:Hr;
        [ | discriminate ].
      split; [ exists p95; split; [ reflexivity | ] | ];
        now apply js_lt_iff.
    + intros [(p95 & -> & Hp) Hr]. cbn [maybe_lt].
      apply js_lt_iff in Hp, Hr. now rewrite Hp, Hr.
  - destruct (_ && _); tauto.
  - destruct (js_lt _ _); tauto.
  - destruct (js_lt _ _); tauto.
  - destruct (http_req_duration_p95 data) as [p95 |].
    + rewrite (js_lt_or_zero p95 300) by reflexivity.
      rewrite <- js_lt_iff. destruct (js_lt _ _); split; congruence.
    + cbn. tauto.
  - rewrite (js_lt_or_zero _ 10) by reflexivity.
    rewrite <- js_lt_iff. destruct (js_lt _ _); split; congruence.
  - reflexivity.
Qed.

End LoadHarness.

(** C4 as stated fails: a response with status 200 and a non-empty
    forecast sequence is recorded as a failure when it took 350 ms, and
    also when it was fast but carries [mae_demand: null]. *)
Lemma slow_success_recorded_as_failure :
  let slow := K6.mkResponse 200 (Normal LoadTest.sample_body) 350 in
  let no_mae :=
    K6.mkResponse 200
      (Normal (JObj [("forecasts", JArr [JObj [("date", JStr "2024-01-01")]]);
                     ("mae_demand", JNull)])) 120 in
  let cycle r ms :=
    snd (LoadTest.default_function Qmult LoadTest.coercion_unused
           (LoadTest.constant_env r ms) LoadTest.fresh_vu) in
  K6.status slow = 200%Z
  /\ LoadTest.response_has_forecasts LoadTest.coercion_unused slow = true
  /\ K6.errors (cycle slow 350%Z) = [1%Z]
  /\ K6.status no_mae = 200%Z
  /\ LoadTest.response_has_forecasts LoadTest.coercion_unused no_mae = true
  /\ LoadTest.response_time_lt_300ms no_mae = true
  /\ K6.errors (cycle no_mae 120%Z) = [1%Z].
Proof. repeat split; reflexivity. Qed.

Lemma primary_record_witness :
  let r := K6.mkResponse 200 (Normal LoadTest.sample_body) 120 in
  K6.errors
    (snd (LoadTest.default_function Qmult LoadTest.coercion_unused
            (LoadTest.constant_env r 120) LoadTest.fresh_vu))
  = [0%Z].
Proof.
  destruct (primary_record Qmult LoadTest.coercion_unused
              (LoadTest.constant_env
                 (K6.mkResponse 200 (Normal LoadTest.sample_body) 120) 120)
              LoadTest.fresh_vu) as (e & Herr & _ & _ & Hobj).
  cbn zeta in *. rewrite Herr.
  assert (e = 0%Z) as ->; [ | reflexivity ].
  apply (Hobj LoadTest.sample_body [JObj [("date", JStr "2024-01-01")]]);
    try reflexivity.
  repeat split; discriminate.
Defined.

(** ** More of the fetch orchestration *)

Section SelectionControls.

Import Cards.

Lemma update_selection_effect (f : State -> State) (w : World) :
  (forall s, loading (f s) = loading s /\ error (f s) = error s) ->
  let k := current_key (f (app w)) in
  let w' := update_selection f w in
  let reload :=
    negb (bool_decide (k = current_key (app w)))
    && negb (String.eqb (itemId k) "") in
  current_key (app w') = k
  /\ inflight w'
     = inflight w ++ (if reload then reload_requests (next_id w) k else [])
  /\ (reload = true -> loading (app w') = true /\ error (app w') = None)
  /\ (reload = false ->
      loading (app w') = loading (app w) /\ error (app w') = error (app w)).
Proof.
  intros Hf k w' reload. subst k w' reload. unfold update_selection.
  destruct (decide _) as [Hkey | Hkey].
  - rewrite bool_decide_eq_true_2 by exact Hkey. cbn [negb andb].
    rewrite app_nil_r. repeat split; try discriminate; apply Hf.
  - rewrite bool_decide_eq_false_2 by exact Hkey. cbn [negb andb].
    change (itemId (current_key (f (app w))))
      with (selectedItem (app (with_app f w))).
    destruct (String.eqb (selectedItem (app (with_app f w))) "") eqn:Hsel.
    + unfold reload_effect. rewrite Hsel. cbn [negb].
      rewrite app_nil_r. repeat split; try discriminate; apply Hf.
    + destruct (reload_effect_requests _ Hsel) as (Hin & _ & Herr).
      cbn [negb]. repeat split; try discriminate.
      * unfold reload_effect. rewrite Hsel. reflexivity.
      * exact Hin.
      * unfold reload_effect. rewrite Hsel. reflexivity.
      * exact Herr.
Qed.

(** A change of item, horizon or model.  The three loaders are called,
    in the order forecast, cost analysis, metrics and with the new
    selection in their URLs, exactly when the value differs from the
    current one and an item is selected; then the spinner is on and the
    error is cleared.  Otherwise no request leaves, and the spinner and
    the error stay as they are.  The result slots are never touched. *)
Theorem selection_change_reloads (w : World) (ev : Event)
    (k : SelectionKey) :
  selection_after (app w) ev = Some k ->
  let w' := step w ev in
  let reload :=
    negb (bool_decide (k = current_key (app w)))
    && negb (String.eqb (itemId k) "") in
  current_key (app w') = k
  /\ inflight w'
     = inflight w ++ (if reload then reload_requests (next_id w) k else [])
  /\ map (fun e => url (snd e)) (reload_requests (next_id w) k)
     = [ (API_BASE_URL ++ "/forecast/" ++ itemId k ++ "?days="
            ++ pretty (horizonDays k) ++ "&model=" ++ model k)%string;
         (API_BASE_URL ++ "/cost-analysis/" ++ itemId k
            ++ "?period=30d")%string;
         (API_BASE_URL ++ "/metrics/" ++ itemId k ++ "?model="
            ++ model k)%string ]
  /\ (reload = true -> loading (app w') = true /\ error (app w') = None)
  /\ (reload = false ->
      loading (app w') = loading (app w) /\ error (app w') = error (app w))
  /\ forall K, slot K (app w') = slot K (app w).
Proof.
  intros Hev w' reload. subst w' reload.
  destruct ev as [o | item | days | m | | id o]; try discriminate;
    cbn [selection_after] in Hev; injection Hev as <-; cbn [step].
  - destruct (update_selection_effect (setSelectedItem item) w)
      as (H1 & H2 & H3 & H4); [ intros s; split; reflexivity | ].
    repeat split; try assumption; try (now apply H3); try (now apply H4).
    intros K. apply update_selection_slot. intros s. destruct K; reflexivity.
  - destruct (update_selection_effect (setForecastDays days) w)
      as (H1 & H2 & H3 & H4); [ intros s; split; reflexivity | ].
    repeat split; try assumption; try (now apply H3); try (now apply H4).
    intros K. apply update_selection_slot. intros s. destruct K; reflexivity.
  - destruct (update_selection_effect (setModelType m) w)
      as (H1 & H2 & H3 & H4); [ intros s; split; reflexivity | ].
    repeat split; try assumption; try (now apply H3); try (now apply H4).
    intros K. apply update_selection_slot. intros s. destruct K; reflexivity.
Qed.

Lemma selection_change_reloads_witness :
  let w' := step loaded_world (SelectDays 30) in
  inflight w'
  = [ (3, mkReq ForecastReq (mkKey "ITEM001" 30 "prophet"));
      (4, mkReq CostReq (mkKey "ITEM001" 30 "prophet"));
      (5, mkReq MetricsReq (mkKey "ITEM001" 30 "prophet")) ]
  /\ loading (app w') = true.
Proof.
  destruct (selection_change_reloads loaded_world (SelectDays 30)
              (mkKey "ITEM001" 30 "prophet") eq_refl)
    as (_ & Hin & _ & Hload & _).
  split; [ exact Hin | ]. now apply Hload.
Defined.

(** The Update Forecast button.  While the spinner is on or no item is
    selected the click does nothing; otherwise it calls the forecast
    loader alone: one forecast request for the current selection leaves,
    the spinner goes on and the error is cleared, and no cost-analysis or
    metrics request is issued.  The result slots are not touched. *)
Theorem update_button_reloads_forecast_only (w : World) :
  let w' := step w ClickUpdate in
  let enabled :=
    negb (loading (app w) || String.eqb (selectedItem (app w)) "") in
  inflight w'
  = inflight w
    ++ (if enabled
        then [(next_id w, mkReq ForecastReq (current_key (app w)))]
        else [])
  /\ pending CostReq w' = pending CostReq w
  /\ pending MetricsReq w' = pending MetricsReq w
  /\ current_key (app w') = current_key (app w)
  /\ (forall K, slot K (app w') = slot K (app w))
  /\ (enabled = true -> loading (app w') = true /\ error (app w') = None)
  /\ (enabled = false -> w' = w).
Proof.
  cbn zeta. cbn [step].
  destruct (loading (app w) || String.eqb (selectedItem (app w)) "");
    cbn [negb].
  - rewrite app_nil_r. repeat split; discriminate.
  - unfold loadForecastData_call. rewrite !pending_axios_get.
    cbn. rewrite !app_nil_r.
    repeat split; discriminate.
Qed.

(** The response to [GET /items], with [response.data.items] a list of
    item names.  A rejection shows "Failed to load items" and selects
    nothing; an empty list selects nothing; otherwise the first item is
    selected and, when it differs from the current selection and is not
    the empty string, the three loaders are called for it. *)
Theorem items_response_selects_first (w : World)
    (o : Outcome (list string)) :
  let w' := step w (ItemsResponse o) in
  match o with
  | Rejected =>
      error (app w') = Some "Failed to load items"
      /\ inflight w' = inflight w
      /\ current_key (app w') = current_key (app w)
      /\ items (app w') = items (app w)
  | Fulfilled [] =>
      items (app w') = []
      /\ inflight w' = inflight w
      /\ current_key (app w') = current_key (app w)
      /\ error (app w') = error (app w)
  | Fulfilled (first :: rest) =>
      let k := mkKey first (forecastDays (app w)) (modelType (app w)) in
      items (app w') = first :: rest
      /\ current_key (app w') = k
      /\ inflight w'
         = inflight w
           ++ (if negb (bool_decide (k = current_key (app w)))
                  && negb (String.eqb first "")
               then reload_requests (next_id w) k else [])
  end.
Proof.
  cbn zeta. cbn [step fetchItems_resume].
  destruct o as [[| first rest] |].
  - repeat split; reflexivity.
  - destruct (update_selection_effect
                (fun s => setSelectedItem first (setItems (first :: rest) s))
                w) as (H1 & H2 & _); [ intros s; split; reflexivity | ].
    split; [ | split; [ exact H1 | exact H2 ] ].
    cbn [fetchItems_resume]. unfold update_selection.
    match goal with
    | |- context [decide ?P] => destruct (decide P); [ reflexivity | ]
    end.
    unfold reload_effect. destruct (String.eqb _ _); reflexivity.
  - repeat split; reflexivity.
Qed.

End SelectionControls.

(** ** What holds of every world the component can reach *)

Section ReachableWorlds.

Import Cards.

Lemma settle_inflight (w : World) (id : nat) (o : Outcome JSON) :
  inflight (step w (Settle id o))
  = match find_request id w with
    | Some _ => filter (fun e => fst e <> id) (inflight w)
    | None => inflight w
    end.
Proof.
  cbn [step]. destruct (find_request id w) as [[[] k] |], o; reflexivity.
Qed.

Lemma settle_loading (w : World) (id : nat) (rq : Request)
    (o : Outcome JSON) :
  find_request id w = Some rq ->
  loading (app (step w (Settle id o)))
  = match kind rq with
    | ForecastReq => false
    | _ => loading (app w)
    end.
Proof.
  intros Hfind. cbn [step]. rewrite Hfind.
  destruct rq as [[] k], o; reflexivity.
Qed.

Lemma filter_absent_id (id : nat) (l : list (nat * Request)) :
  id ∉ fst <$> l -> filter (fun e => fst e <> id) l = l.
Proof.
  induction l as [| e l IH]; intros Hnotin; [ reflexivity | ].
  rewrite fmap_cons in Hnotin. apply not_elem_of_cons in Hnotin as [Hne Hl].
  rewrite filter_cons_True by congruence. now rewrite IH.
Qed.

Lemma pending_drop_other (l : list (nat * Request)) (id : nat)
    (rq : Request) (K : Kind) :
  NoDup (fst <$> l) ->
  snd <$> List.find (fun e => Nat.eqb (fst e) id) l = Some rq ->
  kind rq <> K ->
  filter (fun e => kind (snd e) = K) (filter (fun e => fst e <> id) l)
  = filter (fun e => kind (snd e) = K) l.
Proof.
  induction l as [| e l IH]; intros Hnd Hfind HK; [ reflexivity | ].
  rewrite fmap_cons in Hnd. apply NoDup_cons in Hnd as [Hnotin Hnd].
  cbn [List.find] in Hfind.
  destruct (Nat.eqb_spec (fst e) id) as [Heq | Hne].
  - cbn in Hfind. injection Hfind as <-.
    rewrite filter_cons_False by (intros H; apply H; exact Heq).
    rewrite <- Heq, filter_absent_id by exact Hnotin.
    now rewrite (filter_cons_False (fun e => kind (snd e) = K)).
  - rewrite filter_cons_True by exact Hne.
    rewrite !(filter_cons (fun e => kind (snd e) = K)).
    rewrite (IH Hnd Hfind HK). reflexivity.
Qed.

(** *** No request without an item *)

Lemma named_requests_step (w : World) (ev : Event) :
  Forall (fun e => String.eqb (itemId (key (snd e))) "" = false)
    (inflight w) ->
  Forall (fun e => String.eqb (itemId (key (snd e))) "" = false)
    (inflight (step w ev)).
Proof.
  intros Hw.
  assert (forall f,
            (forall s, loading (f s) = loading s /\ error (f s) = error s) ->
            Forall (fun e => String.eqb (itemId (key (snd e))) "" = false)
              (inflight (update_selection f w))) as Hupd.
  { intros f Hf.
    destruct (update_selection_effect f w Hf) as (_ & -> & _).
    apply Forall_app. split; [ exact Hw | ].
    destruct (negb (bool_decide _)); cbn [andb]; [ | constructor ].
    destruct (String.eqb (itemId _) "") eqn:Hitem; cbn [negb];
      [ constructor | ].
    repeat constructor; exact Hitem. }
  destruct ev as [[its |] | item | days | m | | id o]; cbn [step].
  - destruct its as [| first rest]; cbn [fetchItems_resume]; [ exact Hw | ].
    apply Hupd. intros s. split; reflexivity.
  - exact Hw.
  - apply Hupd. intros s. split; reflexivity.
  - apply Hupd. intros s. split; reflexivity.
  - apply Hupd. intros s. split; reflexivity.
  - destruct (loading (app w)); cbn [orb]; [ exact Hw | ].
    destruct (String.eqb (selectedItem (app w)) "") eqn:Hitem; [ exact Hw | ].
    cbn [loadForecastData_call axios_get inflight with_app app].
    apply Forall_app. split; [ exact Hw | ].
    repeat constructor. exact Hitem.
  - fold (step w (Settle id o)). rewrite settle_inflight.
    destruct (find_request id w); [ | exact Hw ].
    rewrite Forall_forall in *. intros e He.
    apply list_elem_of_filter in He as [_ He]. now apply Hw.
Qed.

(** Whatever the user and the network do, every request the component
    has in flight was built from a selection with an item: no URL with an
    empty item name is ever requested. *)
Theorem no_request_without_item (evs : list Event) (id : nat)
    (rq : Request) :
  (id, rq) ∈ inflight (run initial_world evs) ->
  itemId (key rq) <> ""
  /\ String.prefix (API_BASE_URL ++ "/") (url rq) = true.
Proof.
  assert (forall w,
            Forall (fun e => String.eqb (itemId (key (snd e))) "" = false)
              (inflight w) ->
            Forall (fun e => String.eqb (itemId (key (snd e))) "" = false)
              (inflight (run w evs))) as Hrun.
  { induction evs as [| ev evs IH]; intros w Hw; [ exact Hw | ].
    cbn [run fold_left]. apply IH, named_requests_step, Hw. }
  intros Hin. specialize (Hrun initial_world (Forall_nil_2 _)).
  rewrite Forall_forall in Hrun. specialize (Hrun _ Hin). cbn [snd] in Hrun.
  split.
  - intros Heq. rewrite Heq in Hrun. discriminate.
  - destruct rq as [[] k]; reflexivity.
Qed.

Lemma no_request_without_item_witness :
  itemId (mkKey "ITEM002" 90 "prophet") <> ""
  /\ String.prefix (API_BASE_URL ++ "/")
       (url (mkReq CostReq (mkKey "ITEM002" 90 "prophet"))) = true.
Proof.
  apply (no_request_without_item
           [SelectItem ""; SelectModel "arima"; SelectItem "ITEM002";
            SelectModel "prophet"; Settle 0 Rejected] 4
           (mkReq CostReq (mkKey "ITEM002" 90 "prophet"))).
  apply list_elem_of_In. vm_compute.
  repeat (first [ left; reflexivity | right ]).
Defined.

(** *** The spinner *)

Lemma spinner_step (w : World) (ev : Event) :
  fresh_ids w ->
  (loading (app w) = true -> pending ForecastReq w <> []) ->
  loading (app (step w ev)) = true -> pending ForecastReq (step w ev) <> [].
Proof.
  intros [_ Hnd] Hw.
  assert (forall f,
            (forall s, loading (f s) = loading s /\ error (f s) = error s) ->
            loading (app (update_selection f w)) = true ->
            pending ForecastReq (update_selection f w) <> []) as Hupd.
  { intros f Hf.
    destruct (update_selection_effect f w Hf) as (_ & Hin & _ & Hsame).
    unfold pending. rewrite Hin, filter_app.
    destruct (negb (bool_decide _) && negb (String.eqb _ _)).
    - intros _ Hnil. apply app_eq_nil in Hnil as [_ Hnil]. discriminate Hnil.
    - destruct (Hsame eq_refl) as [-> _]. rewrite app_nil_r. exact Hw. }
  destruct ev as [[its |] | item | days | m | | id o]; cbn [step].
  - destruct its as [| first rest]; cbn [fetchItems_resume]; [ exact Hw | ].
    apply Hupd. intros s. split; reflexivity.
  - exact Hw.
  - apply Hupd. intros s. split; reflexivity.
  - apply Hupd. intros s. split; reflexivity.
  - apply Hupd. intros s. split; reflexivity.
  - destruct (loading (app w) || String.eqb (selectedItem (app w)) "");
      [ exact Hw | ].
    intros _. unfold loadForecastData_call. rewrite pending_axios_get.
    cbn. intros Hnil. apply app_eq_nil in Hnil as [_ Hnil]. discriminate Hnil.
  - fold (step w (Settle id o)).
    destruct (find_request id w) as [rq |] eqn:Hfind;
      [ | now rewrite settle_unknown ].
    rewrite (settle_loading w id rq o Hfind).
    destruct (kind rq) eqn:Hkind; try discriminate;
      intros Hload; unfold pending; rewrite settle_inflight, Hfind;
      rewrite (pending_drop_other _ id rq ForecastReq Hnd Hfind)
        by congruence;
      now apply Hw.
Qed.

(** The spinner is only ever on while a forecast request is in flight.
    A settling forecast request turns it off even when newer forecast
    requests are still in flight, and a settling cost-analysis or metrics
    request leaves it as it is. *)
Theorem spinner_needs_forecast_in_flight (evs : list Event) :
  let w := run initial_world evs in
  (loading (app w) = true -> pending ForecastReq w <> [])
  /\ (forall id rq o,
        find_request id w = Some rq ->
        loading (app (step w (Settle id o)))
        = match kind rq with
          | ForecastReq => false
          | _ => loading (app w)
          end).
Proof.
  cbn zeta. split; [ | intros id rq o Hfind; now apply settle_loading ].
  assert (forall w,
            fresh_ids w ->
            (loading (app w) = true -> pending ForecastReq w <> []) ->
            loading (app (run w evs)) = true ->
            pending ForecastReq (run w evs) <> []) as Hrun.
  { induction evs as [| ev evs IH]; intros w Hfresh Hw; [ exact Hw | ].
    cbn [run fold_left]. apply IH.
    - now apply fresh_ids_step.
    - now apply spinner_step. }
  apply Hrun; [ split; constructor | discriminate ].
Qed.

(** *** The slots and the sections they guard *)

Lemma unfulfilled_step_slot (K : Kind) (w : World) (ev : Event) :
  fulfils K w ev = false -> slot K (app (step w ev)) = slot K (app w).
Proof.
  intros Hev.
  destruct (no_fulfilment ev) eqn:Hno; [ now apply step_slot | ].
  destruct ev as [ | | | | | id [d |]]; try discriminate.
  cbn [fulfils] in Hev.
  destruct (find_request id w) as [rq |] eqn:Hfind;
    [ | now rewrite settle_unknown ].
  rewrite (settle_slot w id rq (Fulfilled d) K Hfind).
  apply bool_decide_eq_false in Hev.
  destruct (decide (kind rq = K)); [ contradiction | reflexivity ].
Qed.

(** A result slot changes only when a response of its own loader is
    fulfilled: along any sequence of events without one, [forecastData],
    [costAnalysis] or [metrics] keeps its value, whatever is selected,
    clicked, rejected or fulfilled for the other loaders. *)
Theorem slot_changes_only_by_own_loader (K : Kind) (evs : list Event)
    (w : World) :
  never_fulfils K w evs = true ->
  slot K (app (run w evs)) = slot K (app w).
Proof.
  revert w. induction evs as [| ev evs IH]; intros w Hevs; [ reflexivity | ].
  cbn [never_fulfils] in Hevs. apply andb_true_iff in Hevs as [Hev Hevs].
  apply negb_true_iff in Hev.
  cbn [run fold_left]. fold (run (step w ev) evs).
  rewrite (IH _ Hevs). now apply unfulfilled_step_slot.
Qed.

Lemma slot_changes_only_by_own_loader_witness :
  forecastData
    (app (run loaded_world
            [ SelectItem "ITEM002"; Settle 4 (Fulfilled (JObj []));
              Settle 3 Rejected; ClickUpdate; Settle 5 (Fulfilled JNull) ]))
  = sample_forecast.
Proof.
  apply (slot_changes_only_by_own_loader ForecastReq
           [ SelectItem "ITEM002"; Settle 4 (Fulfilled (JObj []));
             Settle 3 Rejected; ClickUpdate; Settle 5 (Fulfilled JNull) ]
           loaded_world).
  reflexivity.
Defined.

(** Until a metrics response has been fulfilled the screen shows neither
    the MAE cards nor the cost cards: the cost cards sit inside the
    metrics block, so a loaded cost analysis stays hidden. *)
Theorem cost_cards_need_metrics (evs : list Event) :
  never_fulfils MetricsReq initial_world evs = true ->
  let s := app (run initial_world evs) in
  metrics_cards (render s) = false /\ cost_cards (render s) = false.
Proof.
  intros Hevs s. subst s.
  assert (forall w,
            never_fulfils MetricsReq w evs = true ->
            metrics (app (run w evs)) = metrics (app w)) as Hrun.
  { clear Hevs. induction evs as [| ev evs IH]; intros w Hevs;
      [ reflexivity | ].
    cbn [never_fulfils] in Hevs.
    apply andb_true_iff in Hevs as [Hev Hevs].
    apply negb_true_iff in Hev.
    cbn [run fold_left]. fold (run (step w ev) evs).
    rewrite (IH _ Hevs).
    exact (unfulfilled_step_slot MetricsReq w ev Hev). }
  unfold render. cbn [metrics_cards cost_cards].
  rewrite (Hrun initial_world Hevs). split; reflexivity.
Qed.

Lemma cost_cards_need_metrics_witness :
  let s :=
    app (run initial_world
           [ SelectItem "ITEM001"; Settle 2 Rejected;
             Settle 1 (Fulfilled (JObj [("avg_cost", JNum 4)])) ]) in
  metrics_cards (render s) = false /\ cost_cards (render s) = false.
Proof.
  apply (cost_cards_need_metrics
           [ SelectItem "ITEM001"; Settle 2 Rejected;
             Settle 1 (Fulfilled (JObj [("avg_cost", JNum 4)])) ]).
  reflexivity.
Defined.

(** *** Commit on arrival *)

(** A fulfilled response is written into the slot of its loader the
    moment it arrives, whether or not its selection is still the current
    one; the other two slots and the selection stay as they are, and so
    does the error slot: a forecast that loads does not clear an error
    that was set in the meantime. *)
Theorem fulfilled_response_is_committed (w : World) (id : nat)
    (rq : Request) (d : JSON) :
  find_request id w = Some rq ->
  let w' := step w (Settle id (Fulfilled d)) in
  slot (kind rq) (app w') = d
  /\ origin w' (kind rq) = Some (key rq)
  /\ (forall K, K <> kind rq ->
        slot K (app w') = slot K (app w) /\ origin w' K = origin w K)
  /\ error (app w') = error (app w)
  /\ current_key (app w') = current_key (app w)
  /\ find_request id w' = None.
Proof.
  intros Hfind w'.
  assert (find_request id w' = None) as Hgone.
  { subst w'. unfold find_request. rewrite settle_inflight, Hfind.
    destruct (List.find _ _) as [e |] eqn:He; [ exfalso | reflexivity ].
    apply List.find_some in He as [Hin Heq].
    apply list_elem_of_In, list_elem_of_filter in Hin as [Hne _].
    apply Nat.eqb_eq in Heq. contradiction. }
  subst w'. repeat split.
  - rewrite (settle_slot w id rq (Fulfilled d) (kind rq) Hfind).
    destruct (decide (kind rq = kind rq)); [ reflexivity | contradiction ].
  - cbn [step]. rewrite Hfind. destruct rq as [[] k]; reflexivity.
  - rewrite (settle_slot w id rq (Fulfilled d) K Hfind).
    destruct (decide (kind rq = K)); [ congruence | reflexivity ].
  - cbn [step]. rewrite Hfind.
    destruct rq as [[] k], K; cbn [kind key] in *; try congruence;
      reflexivity.
  - rewrite (settle_error w id rq (Fulfilled d) Hfind).
    destruct (kind rq); reflexivity.
  - cbn [step]. rewrite Hfind. destruct rq as [[] k]; reflexivity.
  - exact Hgone.
Qed.

Lemma fulfilled_response_is_committed_witness :
  let w' :=
    step (run initial_world
            [ SelectItem "ITEM001"; SelectItem "ITEM002";
              Settle 0 Rejected ])
      (Settle 3 (Fulfilled (forecast_for "ITEM002"))) in
  forecastData (app w') = forecast_for "ITEM002"
  /\ error (app w') = Some "Failed to load forecast data".
Proof.
  destruct (fulfilled_response_is_committed
              (run initial_world
                 [ SelectItem "ITEM001"; SelectItem "ITEM002";
                   Settle 0 Rejected ])
              3 (mkReq ForecastReq (mkKey "ITEM002" 90 "prophet"))
              (forecast_for "ITEM002") eq_refl)
    as (Hslot & _ & _ & Herr & _).
  cbn zeta in *. split; [ exact Hslot | ].
  rewrite Herr. vm_compute. reflexivity.
Defined.

End ReachableWorlds.

(** ** The MAE cards *)

Section MaeCards.

Import Cards.

Local Open Scope Q_scope.

Variable coerced_to_number : JSON -> JSNumber.

Lemma member_value (j : JSON) (k : string) :
  j <> JNull -> member (Some j) k = Normal (get j k).
Proof. destruct j; congruence || reflexivity. Qed.

Lemma group_mae_cases (m : JSON) (group : string) :
  truthy m = true ->
  match get m group with
  | None | Some JNull => group_mae m group = Throw TypeError
  | Some g => group_mae m group = Normal (get g "mae")
  end.
Proof.
  intros Hm. unfold group_mae.
  rewrite member_value by (intros ->; discriminate).
  destruct (get m group) as [[] |]; reflexivity.
Qed.


Lemma mae_expression_cases (m : JSON) (group : string) :
  truthy m = true ->
  (get m group = None -> mae_expression m group = Throw TypeError)
  /\ (get m group = Some JNull -> mae_expression m group = Throw TypeError)
  /\ (forall g,
        get m group = Some g -> g <> JNull ->
        mae_expression m group
        = match get g "mae" with
          | Some mae =>
              if React.to_primitive_throws mae then Throw TypeError
              else Normal (Some mae)
          | None => Normal None
          end).
Proof.
  intros Hm. unfold mae_expression.
  pose proof (group_mae_cases m group Hm) as Hg.
  split; [ | split ].
  - intros Hget. rewrite Hget in Hg. now rewrite Hg.
  - intros Hget. rewrite Hget in Hg. now rewrite Hg.
  - intros g Hget Hnn. rewrite Hget in Hg.
    assert (group_mae m group = Normal (get g "mae")) as ->
      by (destruct g; congruence).
    cbn [JS.bind].
    destruct (get g "mae") as [mae |]; cbn [JS.bind React.coerces];
      [ | reflexivity ].
    destruct (React.to_primitive_throws mae); reflexivity.
Qed.

Lemma card_renders_cases (m : JSON) (group : string) :
  truthy m = true ->
  (card_renders m group /\ exists v,
      mae_expression m group = Normal v /\ React.valid_child_v v = true
      /\ forall g, get m group = Some g -> v = get g "mae")
  \/ (~ card_renders m group
      /\ (throws (mae_expression m group)
          \/ exists v, mae_expression m group = Normal v
                       /\ React.valid_child_v v = false)).
Proof.
  intros Hm.
  destruct (mae_expression_cases m group Hm) as (Hnone & Hnull & Hsome).
  unfold card_renders.
  destruct (get m group) as [g |] eqn:Hg.
  - assert (g = JNull \/ g <> JNull) as [-> | Hnn]
      by (destruct g; (now left) || (right; discriminate)).
    { right. split; [ intros (g' & [= <-] & H & _); congruence | ].
      left. rewrite (Hnull eq_refl). exact I. }
    rewrite (Hsome g eq_refl Hnn).
    destruct (get g "mae") as [mae |] eqn:Hmae.
    + destruct (React.to_primitive_throws mae) eqn:Hp.
      * right. split; [ | left; exact I ].
        intros (g' & [= <-] & _ & H).
        destruct (H mae Hmae) as [H1 _]. congruence.
      * destruct (React.valid_child mae) eqn:Hv.
        -- left. split.
           ++ exists g. split; [ reflexivity | ]. split; [ exact Hnn | ].
              intros mae' H. rewrite Hmae in H. injection H as <-.
              split; assumption.
           ++ exists (Some mae). repeat split; try assumption.
              intros g' [= <-]. now symmetry.
        -- right. split.
           ++ intros (g' & [= <-] & _ & H).
              destruct (H mae Hmae) as [_ H2]. congruence.
           ++ right. exists (Some mae). split; [ reflexivity | exact Hv ].
    + left. split.
      * exists g. split; [ reflexivity | ]. split; [ exact Hnn | ].
        intros mae' H. rewrite Hmae in H. discriminate H.
      * exists None. repeat split.
        intros g' [= <-]. now symmetry.
  - right. split; [ intros (g & H & _); discriminate H | ].
    left. rewrite (Hnone eq_refl). exact I.
Qed.


End MaeCards.

(** ** The two charts together *)

Section BothCharts.

(** The demand chart and the price chart read the same [forecasts] and
    the same dates, so they fail together and are absent together: one
    throws exactly when the other does, and one returns [null] exactly
    when the other does. *)
Theorem builders_fail_together (item : string) (fd : JSON) :
  (throws (createForecastChart item fd) <-> throws (createPriceChart item fd))
  /\ (createForecastChart item fd = Normal None
      <-> createPriceChart item fd = Normal None)
  /\ (forall demand,
        createForecastChart item fd = Normal (Some demand) ->
        exists price,
          createPriceChart item fd = Normal (Some price)
          /\ axis <$> series_of price = axis <$> series_of demand).
Proof.
  split; [ | split ].
  - rewrite createForecastChart_throws, createPriceChart_throws. tauto.
  - destruct (truthy_v (get fd "forecasts")) eqn:Hf.
    + destruct (get fd "forecasts") as [f |] eqn:Hget; [ | discriminate ].
      cbn [truthy_v] in Hf. destruct f; try discriminate Hf;
        try (split; intros H; exfalso;
             [ assert (throws (createForecastChart item fd)) as Ht
                 by (apply createForecastChart_throws; eexists;
                     repeat split; [ exact Hget | exact Hf | exact I ])
             | assert (throws (createPriceChart item fd)) as Ht
                 by (apply createPriceChart_throws; eexists;
                     repeat split; [ exact Hget | exact Hf | exact I ]) ];
             rewrite H in Ht; exact Ht).
      destruct (null_or_points elems) as [Hnull | Hpts].
      * split; intros H; exfalso;
          [ assert (throws (createForecastChart item fd)) as Ht
              by (apply createForecastChart_throws; eexists;
                  repeat split; [ exact Hget | exact Hf | exact Hnull ])
          | assert (throws (createPriceChart item fd)) as Ht
              by (apply createPriceChart_throws; eexists;
                  repeat split; [ exact Hget | exact Hf | exact Hnull ]) ];
          rewrite H in Ht; exact Ht.
      * rewrite (createForecastChart_points item fd elems Hget Hpts).
        rewrite (createPriceChart_points item fd elems Hget Hpts).
        split; discriminate.
    + destruct (chart_without_forecasts item fd Hf) as [-> ->]. tauto.
  - intros demand Hdemand.
    destruct (truthy_v (get fd "forecasts")) eqn:Hf.
    + destruct (get fd "forecasts") as [f |] eqn:Hget; [ | discriminate ].
      cbn [truthy_v] in Hf.
      assert (~ malformed_points f) as Hok.
      { intros Hbad.
        assert (throws (createForecastChart item fd)) as Ht
          by (apply createForecastChart_throws; eexists;
              repeat split; [ exact Hget | exact Hf | exact Hbad ]).
        rewrite Hdemand in Ht. exact Ht. }
      destruct f; try (exfalso; apply Hok; exact I).
      destruct (null_or_points elems) as [Hnull | Hpts];
        [ exfalso; apply Hok; exact Hnull | ].
      rewrite (createForecastChart_points item fd elems Hget Hpts)
        in Hdemand.
      injection Hdemand as <-.
      rewrite (createPriceChart_points item fd elems Hget Hpts).
      eexists. split; reflexivity.
    + destruct (chart_without_forecasts item fd Hf) as [H _].
      rewrite H in Hdemand. discriminate.
Qed.

End BothCharts.

(** ** More of the load script *)

Section LoadScript.

Import K6 LoadTest LoadRun.

Local Open Scope Q_scope.

Variable fmul : Q -> Q -> Q.
Variable coerced_gt_zero : JSON -> bool.

Lemma positive_length (n : nat) :
  js_lt 0 (inject_Z (Z.of_nat n)) = true <-> n <> O.
Proof.
  rewrite js_lt_iff. unfold Qlt. cbn. lia.
Qed.

(** *** The two body checks *)

(** The check named "MAE is reasonable" holds exactly when the body
    parses to a value other than [null] in which neither [mae_demand] nor
    [mae_price] is [null]: a body without the two fields passes, and a
    body that fails to parse does not. *)
Theorem mae_check_characterised (r : Response) :
  mae_is_reasonable r = true <->
  exists data,
    parsed_body r = Normal data /\ data <> JNull
    /\ get data "mae_demand" <> Some JNull
    /\ get data "mae_price" <> Some JNull.
Proof.
  unfold mae_is_reasonable.
  destruct (parsed_body r) as [data | e]; cbn [JS.bind].
  - destruct data;
      try (cbn; split;
           [ intros _; eexists; repeat split; discriminate
           | reflexivity ]).
    + cbn. split; [ discriminate | intros (d & [= <-] & H & _); congruence ].
    + cbn [member get JS.bind].
      destruct (assoc "mae_demand" fields) as [[] |] eqn:Hd;
        destruct (assoc "mae_price" fields) as [[] |] eqn:Hp; cbn;
        (split;
         [ intros H; try discriminate H; exists (JObj fields);
           cbn [get]; rewrite Hd, Hp; repeat split; discriminate
         | intros (d & [= <-] & _ & H1 & H2); cbn [get] in H1, H2;
           rewrite Hd in H1; rewrite Hp in H2; congruence ]).
  - split; [ discriminate | intros (d & H & _); discriminate H ].
Qed.

(** The check named "response has forecasts" holds exactly when the body
    parses to an object whose [forecasts] is a non-empty array, a
    non-empty string, or an object whose own [length] compares above 0;
    on a body that fails to parse, on [null] and on a missing field it is
    false rather than an exception. *)
Theorem forecasts_check_characterised (r : Response) :
  response_has_forecasts coerced_gt_zero r = true <->
  exists data f,
    parsed_body r = Normal data
    /\ get data "forecasts" = Some f
    /\ match f with
       | JArr elems => elems <> []
       | JStr s => s <> ""%string
       | JObj fields =>
           gt_zero coerced_gt_zero (assoc "length" fields) = true
       | _ => False
       end.
Proof.
  unfold response_has_forecasts.
  destruct (parsed_body r) as [data | e]; cbn [JS.bind];
    [ | split; [ discriminate | intros (d & f & H & _); discriminate H ] ].
  destruct data;
    try (cbn; split;
         [ discriminate | intros (d & f & [= <-] & H & _); discriminate H ]).
  cbn [member get JS.bind].
  destruct (assoc "forecasts" fields) as [f |] eqn:Hf;
    [ | split; [ discriminate
               | intros (d & f & [= <-] & H & _); cbn in H; congruence ] ].
  assert (forall P : JSON -> Prop,
            (exists data f0,
               Normal (JObj fields) = Normal data
               /\ get data "forecasts" = Some f0 /\ P f0) <-> P f) as Hex.
  { intros P. split.
    - intros (d & f0 & [= <-] & H & HP). cbn in H. congruence.
    - intros HP. exists (JObj fields), f. repeat split; assumption. }
  rewrite (Hex (fun f => match f with
                         | JArr elems => elems <> []
                         | JStr s => s <> ""%string
                         | JObj fields =>
                             gt_zero coerced_gt_zero (assoc "length" fields)
                             = true
                         | _ => False
                         end)).
  destruct f; cbn [truthy length_of gt_zero].
  - split; [ discriminate | tauto ].
  - destruct b; (split; [ discriminate | tauto ]).
  - destruct (negb (Qeq_bool q 0)); (split; [ discriminate | tauto ]).
  - destruct s as [| c s]; cbn [String.eqb negb String.length].
    + split; [ discriminate | congruence ].
    + rewrite positive_length. split; [ discriminate | lia ].
  - rewrite positive_length. destruct elems; cbn [length];
      split; congruence || lia || discriminate.
  - reflexivity.
Qed.

(** *** One cycle *)

Lemma default_function_footprint (env : Env) (st : VUState) :
  let st' := snd (default_function fmul coerced_gt_zero env st) in
  let urls := primary_url fmul env st :: probe_urls fmul env st in
  random_calls st' = (6 + random_calls st)%nat
  /\ http_reqs st' = http_reqs st ++ urls
  /\ length (checks st')
     = (length (checks st) + 3 + length urls)%nat
  /\ now st'
     = (now st + fold_right Z.add 0 (map (latency env) urls) + 100)%Z.
Proof.
  unfold default_function, primary_url, probe_urls, drawn, pick,
    metrics_url, cost_url, health_url.
  unfold bind, ret, Math_random, Date_now, http_get, responseTime_add,
    check, errorRate_add, sleep.
  cbn [fst snd errors response_time checks http_reqs random_calls now
       Nat.add].
  set (url := forecast_url _ _ _).
  destruct (negb (forallb _ _));
    cbn [fst snd errors response_time checks http_reqs random_calls now];
    repeat (match goal with
            | |- context [js_lt ?a ?b] => destruct (js_lt a b)
            end;
            cbn [fst snd errors response_time checks http_reqs
                 random_calls now]);
    rewrite <- ?app_assoc, ?length_app; simpl;
    repeat split; lia.
Qed.

(** One cycle draws six random numbers whatever branches it takes, sends
    the primary request first and after it only the probes whose draw
    fell below 0.1, 0.05 and 0.02 (metrics, cost analysis, health, in
    that order, one to four requests in all), tallies four checks for the
    primary request and one per probe, and ends 100 ms after its last
    response. *)
Theorem cycle_footprint (env : Env) (st : VUState) :
  let st' := snd (default_function fmul coerced_gt_zero env st) in
  let urls := primary_url fmul env st :: probe_urls fmul env st in
  random_calls st' = (6 + random_calls st)%nat
  /\ http_reqs st' = http_reqs st ++ urls
  /\ (1 <= length urls <= 4)%nat
  /\ length (checks st') = (length (checks st) + 3 + length urls)%nat
  /\ now st'
     = (now st + fold_right Z.add 0 (map (latency env) urls) + 100)%Z.
Proof.
  destruct (default_function_footprint env st) as (Hr & Hu & Hc & Hn).
  cbn zeta. repeat split; try assumption;
    unfold probe_urls; cbn [length];
    repeat (match goal with
            | |- context [js_lt ?a ?b] => destruct (js_lt a b)
            end); simpl; lia.
Qed.

(** *** Many cycles *)

Lemma iterations_succ (n : nat) (env : Env) (st : VUState) :
  snd (iterations fmul coerced_gt_zero (S n) env st)
  = snd (iterations fmul coerced_gt_zero n env
           (snd (default_function fmul coerced_gt_zero env st))).
Proof.
  cbn [iterations]. unfold bind at 1.
  destruct (default_function fmul coerced_gt_zero env st). reflexivity.
Qed.

Lemma iterations_aggregates (n : nat) (env : Env) (st : VUState) :
  let st' := snd (iterations fmul coerced_gt_zero n env st) in
  exists es ds,
    errors st' = errors st ++ es
    /\ response_time st' = response_time st ++ ds
    /\ length es = n /\ length ds = n
    /\ Forall (fun e =>
                 exists url, e = primary_sample coerced_gt_zero
                                   (server env url)) es
    /\ random_calls st' = (6 * n + random_calls st)%nat.
Proof.
  revert st. induction n as [| n IH]; intros st.
  - exists [], []. cbn. rewrite !app_nil_r. repeat split. constructor.
  - cbn zeta. rewrite iterations_succ.
    pose proof (default_function_aggregates fmul coerced_gt_zero env st)
      as Hagg.
    destruct (default_function_footprint env st) as (Hr & _).
    cbn zeta in Hagg, Hr.
    set (st1 := snd (default_function fmul coerced_gt_zero env st)) in *.
    unfold aggregates in Hagg. injection Hagg as He Hd.
    destruct (IH st1) as (es & ds & Hes & Hds & Hle & Hld & Hall & Hrc).
    cbn zeta in *.
    exists (primary_sample coerced_gt_zero
              (server env (primary_url fmul env st)) :: es),
           (latency env (primary_url fmul env st) :: ds).
    rewrite Hes, Hds, He, Hd, Hrc, Hr, <- !app_assoc. cbn [app length].
    repeat split; try lia.
    constructor; [ eexists; reflexivity | exact Hall ].
Qed.

(** A virtual user that runs [n] cycles adds [n] samples to each of the
    two custom metrics, every error sample being 0 or 1, and draws [6 n]
    random numbers. *)
Theorem cycles_accumulate (n : nat) (env : Env) (st : VUState) :
  let st' := snd (iterations fmul coerced_gt_zero n env st) in
  length (errors st') = (length (errors st) + n)%nat
  /\ length (response_time st') = (length (response_time st) + n)%nat
  /\ (exists es, errors st' = errors st ++ es
                 /\ Forall (fun e => e = 0%Z \/ e = 1%Z) es)
  /\ random_calls st' = (6 * n + random_calls st)%nat.
Proof.
  destruct (iterations_aggregates n env st)
    as (es & ds & Hes & Hds & Hle & Hld & Hall & Hrc).
  cbn zeta in *. rewrite Hes, Hds, !length_app, Hle, Hld.
  repeat split; try lia; try assumption.
  exists es. split; [ reflexivity | ].
  eapply Forall_impl; [ exact Hall | ].
  intros e [url ->]. apply primary_sample_bit.
Qed.

(** Against a server whose every response passes the four checks, every
    cycle records a success: after [n] cycles the error samples are [n]
    zeros.  Against a server whose every response reports a duration of
    300 ms or more, every cycle records a failure, whatever the status
    and the body. *)
Theorem uniform_server_uniform_record (n : nat) (env : Env)
    (st : VUState) :
  let st' := snd (iterations fmul coerced_gt_zero n env st) in
  ((forall url,
      status (server env url) = 200%Z
      /\ timings_duration (server env url) < 300
      /\ response_has_forecasts coerced_gt_zero (server env url) = true
      /\ mae_is_reasonable (server env url) = true) ->
   errors st' = errors st ++ repeat 0%Z n)
  /\ ((forall url, 300 <= timings_duration (server env url)) ->
      errors st' = errors st ++ repeat 1%Z n).
Proof.
  destruct (iterations_aggregates n env st)
    as (es & ds & Hes & _ & Hle & _ & Hall & _).
  cbn zeta in *. rewrite Hes.
  assert (forall v, Forall (fun e => e = v) es -> es = repeat v n) as Hrep.
  { intros v Hv. subst n. clear Hes Hall.
    induction Hv as [| e es -> _ IH]; [ reflexivity | ].
    cbn [length repeat]. now rewrite <- IH. }
  split; intros Hserver; f_equal; apply Hrep;
    (eapply Forall_impl; [ exact Hall | ]); intros e [url ->].
  - apply primary_sample_zero. apply Hserver.
  - destruct (primary_sample_bit coerced_gt_zero (server env url))
      as [H0 | H1]; [ | exact H1 ].
    apply primary_sample_zero in H0 as (_ & Hlt & _).
    exfalso. exact (Qlt_not_le _ _ Hlt (Hserver url)).
Qed.

(** *** The report *)

(** When the report says PASSED its p95 line says PASS.  The converse
    fails on a summary without a p95 value: the p95 line reads it as 0
    and says PASS, while the overall verdict compares [undefined] and
    says FAILED. *)
Theorem p95_line_and_verdict (data : SummaryData) :
  let report := handleSummary fmul data in
  (test_verdict report = "PASSED"%string ->
   threshold_p95 report = "PASS"%string)
  /\ (http_req_duration_p95 data = None ->
      threshold_p95 report = "PASS"%string
      /\ test_verdict report = "FAILED"%string)
  /\ (forall p95,
        http_req_duration_p95 data = Some p95 ->
        (threshold_p95 report = "PASS"%string <-> p95 < 300)).
Proof.
  cbn zeta. unfold handleSummary. cbn [test_verdict threshold_p95].
  assert (forall p, js_lt (or_zero (Some p)) 300 = js_lt p 300) as Hor.
  { intros p. cbn [or_zero]. destruct (Qeq_bool p 0) eqn:Hp; [ | reflexivity ].
    apply Qeq_bool_iff in Hp.
    destruct (js_lt p 300) eqn:Hlt; [ reflexivity | ].
    exfalso. assert (p < 300) as H by (rewrite Hp; reflexivity).
    apply js_lt_iff in H. congruence. }
  split; [ | split ].
  - destruct (http_req_duration_p95 data) as [p |]; cbn [maybe_lt andb];
      [ | discriminate ].
    rewrite Hor. destruct (js_lt p 300); [ reflexivity | discriminate ].
  - intros ->. split; reflexivity.
  - intros p95 ->. rewrite Hor, <- js_lt_iff.
    destruct (js_lt p95 300); split; congruence.
Qed.

End LoadScript.

Lemma p95_line_and_verdict_witness :
  let report :=
    LoadTest.handleSummary Qmult (LoadTest.mkSummary None (1 # 100)) in
  LoadTest.threshold_p95 report = "PASS"
  /\ LoadTest.test_verdict report = "FAILED".
Proof.
  apply (proj1 (proj2 (p95_line_and_verdict Qmult
                         (LoadTest.mkSummary None (1 # 100))))).
  reflexivity.
Defined.


(** ** A render that throws *)

Section RenderFailure.

Import Live.

Lemma forecast_block_model_type (item : string) (fd : JSON) :
  truthy fd = true ->
  (forall m, get fd "model_type" <> Some (JStr m)) ->
  throws (forecast_block item fd).
Proof.
  intros Hfd Hmodel. unfold forecast_block. rewrite Hfd.
  destruct (createForecastChart item fd); cbn [JS.bind]; [ | exact I ].
  destruct (createPriceChart item fd); cbn [JS.bind]; [ | exact I ].
  unfold model_information_expressions.
  destruct fd; try discriminate Hfd; cbn [member JS.bind];
    try exact I.
  destruct (get (JObj fields) "model_type") as [[] |] eqn:Hget;
    try exact I.
  exfalso. exact (Hmodel _ eq_refl).
Qed.

(** The Model Information card calls [forecastData.model_type.toUpperCase()].
    When a forecast response that is truthy and has no string under
    [model_type] is committed, the render that follows throws; there is
    no error boundary, so the component is unmounted and stays so
    whatever happens next. *)
Theorem forecast_without_model_type_unmounts (w : World) (id : nat)
    (rq : Request) (d : JSON) (evs : list Event) :
  find_request id w = Some rq ->
  kind rq = ForecastReq ->
  truthy d = true ->
  (forall m, get d "model_type" <> Some (JStr m)) ->
  throws (render_app (app (step w (Settle id (Fulfilled d)))))
  /\ live_run (Mounted w) (Settle id (Fulfilled d) :: evs) = Unmounted.
Proof.
  intros Hfind Hkind Hd Hmodel.
  pose proof (settle_slot_own w id rq d Hfind) as Hslot.
  rewrite Hkind in Hslot. cbn [slot] in Hslot.
  assert (throws (render_app (app (step w (Settle id (Fulfilled d))))))
    as Hthrows.
  { unfold render_app. rewrite Hslot.
    destruct (metrics_block _ _); cbn [JS.bind]; [ | exact I ].
    pose proof (forecast_block_model_type
                  (selectedItem (app (step w (Settle id (Fulfilled d)))))
                  d Hd Hmodel) as Hblock.
    destruct (forecast_block _ d); [ contradiction | exact I ]. }
  split; [ exact Hthrows | ].
  rewrite live_run_cons. cbn [live_step]. unfold commit, mounts.
  destruct (render_app _); [ contradiction | ].
  apply live_run_unmounted.
Qed.

End RenderFailure.

Lemma forecast_without_model_type_unmounts_witness :
  Live.live_run (Live.Mounted initial_world)
    [ SelectItem "ITEM001";
      Settle 0 (Fulfilled (JObj [("forecasts", JArr [])]));
      Settle 1 (Fulfilled sample_cost) ]
  = Live.Unmounted.
Proof.
  change (Live.live_run
            (Live.live_step (Live.Mounted initial_world)
               (SelectItem "ITEM001"))
            [ Settle 0 (Fulfilled (JObj [("forecasts", JArr [])]));
              Settle 1 (Fulfilled sample_cost) ]
          = Live.Unmounted).
  apply (forecast_without_model_type_unmounts
           (step initial_world (SelectItem "ITEM001")) 0
           (mkReq ForecastReq (mkKey "ITEM001" 90 "prophet"))).
  - vm_compute. reflexivity.
  - reflexivity.
  - reflexivity.
  - intros m. vm_compute. discriminate.
Defined.
